(** * AKS multi-tenant kubectl toolset: model and verification

    Shallow embedding of [holmes/plugins/toolsets/aks_base.py] and
    [holmes/plugins/toolsets/aks_kubectl.py].

    Python [str] values are modelled as [string]; a character stands for one
    code point below 256.  On that range the whitespace table of
    [str.strip]/[str.split], [str.lower] and the case folding of
    [re.IGNORECASE] are written out exactly.  Dictionaries with string keys
    are [gmap string _]. *)

From Stdlib Require Import ZArith NArith Ascii DecimalString.
From stdpp Require Import base option list gmap strings.

Local Open Scope Z_scope.

(* ===================================================================== *)
(** * Python string primitives *)
(* ===================================================================== *)

Module Py.

(** [str.isspace] on one code point: TAB..CR, FS..US, SPACE, NEL, NBSP. *)
Definition isspace (c : ascii) : bool :=
  let n := N_of_ascii c in
  ((9 <=? n) && (n <=? 13) || (28 <=? n) && (n <=? 32)
   || (n =? 133) || (n =? 160))%N.

(** [str.lower] on one code point: A..Z, and the Latin-1 capitals
    U+00C0..U+00DE except the multiplication sign U+00D7. *)
Definition lower_char (c : ascii) : ascii :=
  let n := N_of_ascii c in
  if ((65 <=? n) && (n <=? 90)
      || (192 <=? n) && (n <=? 222) && negb (n =? 215))%N
  then ascii_of_N (n + 32) else c.

Fixpoint lower (s : string) : string :=
  match s with
  | EmptyString => EmptyString
  | String c s' => String (lower_char c) (lower s')
  end.

Fixpoint lstrip (s : string) : string :=
  match s with
  | EmptyString => EmptyString
  | String c s' => if isspace c then lstrip s' else s
  end.

Fixpoint rstrip (s : string) : string :=
  match s with
  | EmptyString => EmptyString
  | String c s' =>
      match rstrip s' with
      | EmptyString => if isspace c then EmptyString else String c EmptyString
      | r => String c r
      end
  end.

(** [s.strip()] *)
Definition strip (s : string) : string := rstrip (lstrip s).

(** [s.split()]: maximal runs of non-whitespace characters. *)
Fixpoint split_from (cur s : string) : list string :=
  match s with
  | EmptyString => match cur with EmptyString => [] | _ => [cur] end
  | String c s' =>
      if isspace c
      then match cur with
           | EmptyString => split_from EmptyString s'
           | _ => cur :: split_from EmptyString s'
           end
      else split_from (cur +:+ String c EmptyString) s'
  end.

Definition split (s : string) : list string := split_from EmptyString s.

(** [s.startswith(p)] *)
Fixpoint startswith (p s : string) : bool :=
  match p, s with
  | EmptyString, _ => true
  | String a p', String b s' => if decide (a = b) then startswith p' s' else false
  | String _ _, EmptyString => false
  end.

(** [str(n)] for an [int]. *)
Definition str_of_int (n : Z) : string := NilEmpty.string_of_int (Z.to_int n).

(** [needle in hay] for strings. *)
Definition contains (needle hay : string) : Prop :=
  ∃ pre post, hay = pre +:+ needle +:+ post.

(** [sep.join(parts)] *)
Fixpoint join (sep : string) (parts : list string) : string :=
  match parts with
  | [] => EmptyString
  | [x] => x
  | x :: rest => x +:+ sep +:+ join sep rest
  end.

(** Truthiness of [str] and of [Optional[str]]. *)
Definition truthy (s : string) : bool :=
  match s with EmptyString => false | _ => true end.

Definition truthy_opt (o : option string) : bool :=
  match o with Some s => truthy s | None => false end.

End Py.

(* ===================================================================== *)
(** * The fragment of [re] used by RESOURCE_ID_PATTERN *)
(* ===================================================================== *)

Module Re.

(** Items of a pattern [^ item ... item $] compiled with [re.IGNORECASE]:
    a literal run, or a named group [(?P<name>[^/]+)]. *)
Inductive item :=
| Lit (l : string)
| NamedSeg (name : string).

(** A literal character under IGNORECASE matches every character with the
    same lower-case form. *)
Definition ci_char (a b : ascii) : bool :=
  bool_decide (Py.lower_char a = Py.lower_char b).

Fixpoint ci_eq (a b : string) : bool :=
  match a, b with
  | EmptyString, EmptyString => true
  | String x a', String y b' => ci_char x y && ci_eq a' b'
  | _, _ => false
  end.

(** [[^/]] under IGNORECASE. *)
Definition not_slash (c : ascii) : bool :=
  negb (bool_decide (Py.lower_char c = "/"%char)).

Fixpoint no_slash (s : string) : bool :=
  match s with
  | EmptyString => true
  | String c s' => not_slash c && no_slash s'
  end.

(** Consume the literal [l] from the front of [s]. *)
Fixpoint lit_prefix (l s : string) : option string :=
  match l, s with
  | EmptyString, _ => Some s
  | String a l', String b s' => if ci_char a b then lit_prefix l' s' else None
  | String _ _, EmptyString => None
  end.

(** [$] without MULTILINE: the end of the string, or just before a newline
    that ends the string. *)
Definition at_eol (s : string) : bool :=
  bool_decide (s = EmptyString) || bool_decide (s = String "010" EmptyString).

(** Greedy [[^/]+] with backtracking: having consumed [acc], consume one
    more character, try to go on, and fall back to the continuation [k]. *)
Fixpoint seg_plus {A} (k : string → string → option A) (acc s : string)
  : option A :=
  match s with
  | EmptyString => None
  | String c s' =>
      if not_slash c then
        let acc' := acc +:+ String c EmptyString in
        match seg_plus k acc' s' with
        | Some r => Some r
        | None => k acc' s'
        end
      else None
  end.

(** [pattern.match(s)]: the named groups of the match, if any. *)
Fixpoint match_items (p : list item) (groups : gmap string string) (s : string)
  : option (gmap string string) :=
  match p with
  | [] => if at_eol s then Some groups else None
  | Lit l :: p' =>
      match lit_prefix l s with
      | Some rest => match_items p' groups rest
      | None => None
      end
  | NamedSeg name :: p' =>
      seg_plus (λ seg rest, match_items p' (<[name := seg]> groups) rest)
               EmptyString s
  end.

Definition re_match (p : list item) (s : string) : option (gmap string string) :=
  match_items p ∅ s.

End Re.



(* ===================================================================== *)
(** * Effects: log entries, executor entries and exceptions *)
(* ===================================================================== *)

Inductive level := LDebug | LInfo | LWarning | LError | LException.

(** The exception classes the two modules name or meet; every one of them
    derives from [Exception].  [JSONDecodeError] is the one [json.loads]
    raises for malformed text; [RecursionError] and a plain [ValueError]
    are what it raises for text nested too deeply and for an integer of
    too many digits. *)
Inductive exn_class :=
| ImportError | NotImplementedError | ValueError | IndexError
| TimeoutExpired | JSONDecodeError | RecursionError | OtherException.

(** An exception object: its class and [str(e)]. *)
Record exn := Exn { exn_cls : exn_class; exn_str : string }.

(** Azure credentials and resource information (class AzureResourceContext). *)
Record AzureResourceContext := {
  cloud : string;
  resource_id : string;
  access_token : string;
  subscription_id : string;
  resource_group : string;
  resource_name : string;
  tenant_id : option string
}.

Inductive executor_call :=
| LocalExecutor (kubectl_args : string)
| RemoteExecutor (azure_ctx : AzureResourceContext) (kubectl_args : string).

Inductive event :=
| Log (lvl : level) (msg : string)
| Entered (c : executor_call).

(** A computation: the events it emitted, and an exception or a value. *)
Definition M (A : Type) : Type := (list event * (exn + A))%type.

#[export] Instance M_ret : MRet M := λ A a, ([], inr a).

#[export] Instance M_bind : MBind M := λ A B f m,
  match m.2 with
  | inl e => (m.1, inl e)
  | inr a => (m.1 ++ (f a).1, (f a).2)
  end.

Definition raise {A} (e : exn) : M A := ([], inl e).

Definition log (lvl : level) (msg : string) : M unit := ([Log lvl msg], inr ()).

Definition enter (c : executor_call) : M unit := ([Entered c], inr ()).

(** The outcome of a call into a library, as a computation. *)
Definition lift {A} (r : exn + A) : M A := ([], r).

(** [try: body  except ...: handler]: [handler e] is [None] when no
    [except] clause matches [e]. *)
Definition try_except {A} (body : M A) (handler : exn → option (M A)) : M A :=
  match body.2 with
  | inl e =>
      match handler e with
      | Some h => (body.1 ++ h.1, h.2)
      | None => body
      end
  | inr _ => body
  end.

Definition trace {A} (m : M A) : list event := m.1.

Definition returns {A} (m : M A) (a : A) : Prop := m.2 = inr a.

Definition raises {A} (m : M A) (e : exn) : Prop := m.2 = inl e.

(** The executors entered along a trace, in order. *)
Fixpoint calls_of (tr : list event) : list executor_call :=
  match tr with
  | [] => []
  | Entered c :: tr' => c :: calls_of tr'
  | Log _ _ :: tr' => calls_of tr'
  end.

Definition calls {A} (m : M A) : list executor_call := calls_of (trace m).

(** The log entries along a trace, in order. *)
Fixpoint logs_of (tr : list event) : list (level * string) :=
  match tr with
  | [] => []
  | Log lvl msg :: tr' => (lvl, msg) :: logs_of tr'
  | Entered _ :: tr' => logs_of tr'
  end.

Definition logs {A} (m : M A) : list (level * string) := logs_of (trace m).

(* ===================================================================== *)
(** * Data model *)
(* ===================================================================== *)

(** Python values that [json.loads] produces and that travel as [data]. *)
#[warnings="-register-all"]
Inductive pyvalue :=
| PyNone
| PyBool (b : bool)
| PyInt (n : Z)
| PyFloat (literal : string)
| PyStr (s : string)
| PyList (items : list pyvalue)
| PyDict (entries : list (string * pyvalue)).

(** The dictionary both executors return.  Each of them builds it as a
    literal with the three keys [exit_code], [stdout] and [stderr], so the
    defaults of [result.get(key, default)] in [_invoke] are never taken.
    [exit_code] and [stdout] are [None] when the value is Python's [None],
    which the remote executor passes on from the result object. *)
Record CommandResult := {
  exit_code : option Z;
  stdout : option string;
  stderr : string
}.

(** Modelled from the spec: [StructuredToolResultStatus] of
    [holmes.core.tools] is not part of the sources; its two members used
    here are success and error. *)
Inductive StructuredToolResultStatus := SUCCESS | ERROR.

(** Modelled from the spec: [StructuredToolResult] of [holmes.core.tools]
    is not part of the sources; the fields are the keyword arguments
    [_invoke] passes ([status], [error], [return_code], [data], [params]),
    an argument left out being [None]. *)
Record StructuredToolResult := {
  status : StructuredToolResultStatus;
  error : option string;
  return_code : option Z;
  data : option pyvalue;
  params : gmap string string
}.

(** Modelled from the spec: [ToolInvokeContext] of [holmes.core.tools] is
    not part of the sources; the one attribute read here is
    [request_context], an optional map with string values ([cloud],
    [resource_id], [access_token], [tenant_id]), as the request context
    schema has them.  A request whose values are not strings, and likewise
    an [args] parameter that is not a string, is outside this model. *)
Record ToolInvokeContext := {
  request_context : option (gmap string string)
}.

(** [subprocess.CompletedProcess] with [text=True]. *)
Record CompletedProcess := {
  returncode : Z;
  cp_stdout : string;
  cp_stderr : string
}.

(** An attribute of a Python object as [hasattr] and attribute access see
    it: not there, or there with a value, which may be Python's [None]. *)
Inductive attribute (A : Type) :=
| NoAttribute
| Attribute (value : option A).

Arguments NoAttribute {A}.
Arguments Attribute {A} value.

(** [obj.name if hasattr(obj, "name") else default] *)
Definition attribute_or {A} (a : attribute A) (default : A) : option A :=
  match a with
  | NoAttribute => Some default
  | Attribute value => value
  end.

(** The object [poller.result] yields, with its attributes [exit_code] and
    [logs]. *)
Record RunCommandResult := {
  rcr_exit_code : attribute Z;
  rcr_logs : attribute string
}.

(** The libraries and the machine the tool runs on.
    - [json_loads s]: [json.loads(s)], which returns a value or raises;
    - [shlex_split], [subprocess_run]: [shlex.split] and [subprocess.run]
      with [capture_output=True, text=True, timeout=60];
    - [azure_sdk_installed]: whether the imports at the head of
      [_execute_kubectl_via_azure_sdk] succeed;
    - [container_service_client token subscription]: building the
      credential and the [ContainerServiceClient];
    - [run_command token subscription group name command]:
      [begin_run_command] followed by [poller.result(timeout=300)]. *)
Record Env := {
  json_loads : string → exn + pyvalue;
  shlex_split : string → exn + list string;
  subprocess_run : list string → exn + CompletedProcess;
  azure_sdk_installed : bool;
  container_service_client : string → string → exn + unit;
  run_command : string → string → string → string → string → exn + RunCommandResult
}.

(* ===================================================================== *)
(** * aks_base.py *)
(* ===================================================================== *)

(** [str(x)] inside an f-string, for an [Optional[str]]. *)
Definition fmt_opt (o : option string) : string :=
  match o with Some s => s | None => "None" end.

(** [str(x)] inside an f-string, for an [Optional[int]]. *)
Definition fmt_int (o : option Z) : string :=
  match o with Some n => Py.str_of_int n | None => "None" end.

(** [AzureResourceContext.__repr__] *)
Definition __repr__ (self : AzureResourceContext) : string :=
  "AzureResourceContext(cloud=" +:+ cloud self +:+ ", "
  +:+ "subscription_id=" +:+ subscription_id self +:+ ", "
  +:+ "resource_group=" +:+ resource_group self +:+ ", "
  +:+ "resource_name=" +:+ resource_name self +:+ ", "
  +:+ "tenant_id=" +:+ fmt_opt (tenant_id self) +:+ ", "
  +:+ "access_token=***REDACTED***)".

Definition RESOURCE_ID_PATTERN : list Re.item :=
  [ Re.Lit "/subscriptions/"; Re.NamedSeg "subscription";
    Re.Lit "/resourceGroups/"; Re.NamedSeg "resource_group";
    Re.Lit "/providers/"; Re.NamedSeg "provider";
    Re.Lit "/"; Re.NamedSeg "resource_type";
    Re.Lit "/"; Re.NamedSeg "resource_name" ].

(** [match.group(name)] *)
Definition group (m : gmap string string) (name : string) : M string :=
  match m !! name with
  | Some v => mret v
  | None => raise (Exn IndexError "no such group")
  end.

Definition _parse_resource_id (resource_id : string)
  : M (option (string * string * string)) :=
  if negb (Py.truthy resource_id) then
    log LWarning "Empty resource_id provided";;
    mret None
  else
    match Re.re_match RESOURCE_ID_PATTERN (Py.strip resource_id) with
    | None =>
        log LWarning ("Failed to parse resource_id: " +:+ resource_id);;
        mret None
    | Some m =>
        subscription_id ← group m "subscription";
        resource_group ← group m "resource_group";
        resource_name ← group m "resource_name";
        log LDebug ("Parsed resource_id: subscription=" +:+ subscription_id
                    +:+ ", resource_group=" +:+ resource_group
                    +:+ ", resource_name=" +:+ resource_name);;
        mret (Some (subscription_id, resource_group, resource_name))
    end.

Definition schema_hint : string :=
  "Request context must include: cloud='azure', resource_id, access_token".

Definition format_hint : string :=
  "Expected format: /subscriptions/{sub}/resourceGroups/{rg}/providers/{provider}/{resourceType}/{name}".

Definition _get_resource_context (context : ToolInvokeContext)
  : M (option AzureResourceContext) :=
  match request_context context with
  | None =>
      log LDebug "No request_context provided, using local execution";;
      mret None
  | Some rc =>
      if decide (rc = ∅) then
        log LDebug "No request_context provided, using local execution";;
        mret None
      else
        let cloud := Py.lower (default "" (rc !! "cloud")) in
        if decide (cloud ≠ "azure") then
          log LDebug ("Cloud provider is '" +:+ cloud
                      +:+ "', not 'azure', using local execution");;
          mret None
        else
          match rc !! "resource_id" with
          | Some (String _ _ as resource_id) =>
              match rc !! "access_token" with
              | Some (String _ _ as access_token) =>
                  parsed ← _parse_resource_id resource_id;
                  match parsed with
                  | None =>
                      raise (Exn ValueError
                        ("Failed to parse Azure resource_id: " +:+ resource_id
                         +:+ ". " +:+ format_hint))
                  | Some (subscription_id, resource_group, resource_name) =>
                      let azure_context :=
                        {| cloud := cloud;
                           resource_id := resource_id;
                           access_token := access_token;
                           subscription_id := subscription_id;
                           resource_group := resource_group;
                           resource_name := resource_name;
                           tenant_id := rc !! "tenant_id" |} in
                      log LInfo
                        ("Extracted Azure resource context: subscription="
                         +:+ subscription_id
                         +:+ ", resource_group=" +:+ resource_group
                         +:+ ", resource_name=" +:+ resource_name);;
                      mret (Some azure_context)
                  end
              | _ =>
                  raise (Exn ValueError
                    ("Azure multi-tenant request missing 'access_token' field. "
                     +:+ schema_hint))
              end
          | _ =>
              raise (Exn ValueError
                ("Azure multi-tenant request missing 'resource_id' field. "
                 +:+ schema_hint))
          end
  end.

Definition _execute_kubectl_via_azure_sdk
  (env : Env) (azure_ctx : AzureResourceContext) (kubectl_args : string)
  : M CommandResult :=
  enter (RemoteExecutor azure_ctx kubectl_args);;
  (if azure_sdk_installed env then mret ()
   else
     log LError
       "Azure SDK not available. Install with: pip install azure-mgmt-containerservice";;
     raise (Exn ImportError
       ("azure-mgmt-containerservice package is required for Azure multi-tenant execution. "
        +:+ "Install it with: pip install azure-mgmt-containerservice")));;
  try_except
    (lift (container_service_client env
             (access_token azure_ctx) (subscription_id azure_ctx));;
     let command := "kubectl " +:+ kubectl_args in
     log LInfo ("Executing kubectl command via Azure SDK RunCommand: " +:+ command
                +:+ " (cluster=" +:+ resource_name azure_ctx
                +:+ ", rg=" +:+ resource_group azure_ctx +:+ ")");;
     result ← lift (run_command env
                      (access_token azure_ctx) (subscription_id azure_ctx)
                      (resource_group azure_ctx) (resource_name azure_ctx)
                      command);
     let exit_code := attribute_or (rcr_exit_code result) 0 in
     let stdout := attribute_or (rcr_logs result) "" in
     log LDebug ("Azure SDK RunCommand completed with exit code "
                 +:+ fmt_int exit_code);;
     mret {| exit_code := exit_code; stdout := stdout; stderr := "" |})
    (λ e, Some (
       log LException ("Failed to execute kubectl via Azure SDK: " +:+ kubectl_args
                       +:+ " (cluster=" +:+ resource_name azure_ctx +:+ ")");;
       mret {| exit_code := Some (-1);
               stdout := Some "";
               stderr := "Azure SDK RunCommand failed: " +:+ exn_str e |})).

Definition _execute_kubectl_locally (env : Env) (kubectl_args : string)
  : M CommandResult :=
  enter (LocalExecutor kubectl_args);;
  try_except
    (argv ← lift (shlex_split env kubectl_args);
     let command := "kubectl" :: argv in
     log LDebug ("Executing local kubectl command: " +:+ Py.join " " command);;
     result ← lift (subprocess_run env command);
     log LDebug ("kubectl command completed with exit code "
                 +:+ Py.str_of_int (returncode result));;
     mret {| exit_code := Some (returncode result);
             stdout := Some (cp_stdout result);
             stderr := cp_stderr result |})
    (λ e,
       match exn_cls e with
       | TimeoutExpired => Some (
           log LError ("kubectl command timed out after 60 seconds: "
                       +:+ kubectl_args);;
           mret {| exit_code := Some (-1);
                   stdout := Some "";
                   stderr := "Command timed out after 60 seconds: kubectl "
                             +:+ kubectl_args |})
       | _ => Some (
           log LException ("Failed to execute kubectl command: " +:+ kubectl_args);;
           mret {| exit_code := Some (-1);
                   stdout := Some "";
                   stderr := "Failed to execute kubectl command: " +:+ exn_str e |})
       end).

(* ===================================================================== *)
(** * aks_kubectl.py *)
(* ===================================================================== *)

(** [CallKubectl._parse_kubectl_output].  [stdout] is [None] for Python's
    [None], which is falsy like the empty text.  Of what [json.loads]
    raises, the [except] clause catches [json.JSONDecodeError] and nothing
    else. *)
Definition _parse_kubectl_output (env : Env) (stdout : option string)
  : M pyvalue :=
  match stdout with
  | None => mret (PyDict [("output", PyStr "")])
  | Some stdout =>
      if negb (Py.truthy stdout) || negb (Py.truthy (Py.strip stdout)) then
        mret (PyDict [("output", PyStr "")])
      else
        let fallback := mret (PyDict [("output", PyStr stdout)]) in
        if Py.startswith "{" (Py.strip stdout)
           || Py.startswith "[" (Py.strip stdout)
        then
          try_except
            (lift (json_loads env stdout))
            (λ e,
               match exn_cls e with
               | JSONDecodeError => Some fallback
               | _ => None
               end)
        else fallback
  end.

(** [xs[0]] *)
Definition index0 (xs : list string) : M string :=
  match xs with
  | x :: _ => mret x
  | [] => raise (Exn IndexError "list index out of range")
  end.

(** What the [try] statement of [_invoke] leaves behind: the executor's
    result, or the value of a [return] inside an [except] clause. *)
Inductive try_result :=
| Proceed (result : CommandResult)
| Return (r : StructuredToolResult).

Definition dangerous_commands : list string :=
  ["delete"; "apply"; "create"; "patch"; "replace"; "edit"].

(** The body of [CallKubectl._invoke], with the local list
    [dangerous_commands] as the parameter [verbs]. *)
Definition _invoke_with (verbs : list string) (env : Env)
  (params : gmap string string) (context : ToolInvokeContext)
  : M StructuredToolResult :=
  let kubectl_args := Py.strip (default "" (params !! "args")) in
  if negb (Py.truthy kubectl_args) then
    mret {| status := ERROR;
            error := Some "Missing required parameter 'args'. Please provide kubectl command arguments.";
            return_code := None;
            data := None;
            params := params |}
  else
    first_word ← (if Py.truthy kubectl_args
                  then w ← index0 (Py.split kubectl_args); mret (Py.lower w)
                  else mret "");
    (if bool_decide (first_word ∈ verbs) then
       log LWarning ("Attempted to execute potentially dangerous kubectl command: "
                     +:+ first_word)
     else mret ());;
    azure_ctx ← _get_resource_context context;
    outcome ← try_except
      (result ← match azure_ctx with
                | Some azure_ctx =>
                    log LInfo ("Executing kubectl command via Azure SDK: kubectl "
                               +:+ kubectl_args
                               +:+ " (subscription=" +:+ subscription_id azure_ctx
                               +:+ ", resource_group=" +:+ resource_group azure_ctx
                               +:+ ", resource=" +:+ resource_name azure_ctx +:+ ")");;
                    _execute_kubectl_via_azure_sdk env azure_ctx kubectl_args
                | None =>
                    log LInfo ("Executing kubectl command locally: kubectl "
                               +:+ kubectl_args);;
                    _execute_kubectl_locally env kubectl_args
                end;
       mret (Proceed result))
      (λ e,
         match exn_cls e with
         | ImportError => Some (
             mret (Return {| status := ERROR; error := Some (exn_str e);
                             return_code := None; data := None;
                             params := params |}))
         | NotImplementedError => Some (
             mret (Return {| status := ERROR; error := Some (exn_str e);
                             return_code := None; data := None;
                             params := params |}))
         | _ => Some (
             log LException ("Failed to execute kubectl command: " +:+ kubectl_args);;
             mret (Return {| status := ERROR;
                             error := Some ("Failed to execute kubectl command: "
                                            +:+ exn_str e);
                             return_code := None; data := None;
                             params := params |}))
         end);
    match outcome with
    | Return r => mret r
    | Proceed result =>
        let exit_code := exit_code result in
        if decide (exit_code ≠ Some 0) then
          let stderr := stderr result in
          mret {| status := ERROR;
                  error := Some ("kubectl command failed (exit code "
                                 +:+ fmt_int exit_code +:+ "): " +:+ stderr);
                  return_code := exit_code;
                  data := None;
                  params := params |}
        else
          let stdout := stdout result in
          data ← _parse_kubectl_output env stdout;
          mret {| status := SUCCESS;
                  error := None;
                  return_code := exit_code;
                  data := Some data;
                  params := params |}
    end.

(** [CallKubectl._invoke] *)
Definition _invoke (env : Env) (params : gmap string string)
  (context : ToolInvokeContext) : M StructuredToolResult :=
  _invoke_with dangerous_commands env params context.

(* ===================================================================== *)
(** * aks_toolset.py *)
(* ===================================================================== *)

(** [AKSToolset._check_prerequisites].  [probe argv] is
    [subprocess.run(argv, capture_output=True, text=True, timeout=10)]; the
    [except] clause names [Exception], so it catches whatever the probe
    raises. *)
Definition _check_prerequisites
  (probe : list string → exn + CompletedProcess) : M (bool * string) :=
  kubectl_available ←
    try_except
      (result ← lift (probe ["kubectl"; "version"; "--client"]);
       if decide (returncode result = 0) then
         log LDebug "kubectl is available for local execution";;
         mret true
       else mret false)
      (λ e, Some (
         log LDebug ("kubectl not available: " +:+ exn_str e);;
         mret false));
  if kubectl_available : bool then mret (true, "")
  else
    mret (true,
          "kubectl not found - local execution will not work. "
          +:+ "Azure multi-tenant execution via SDK will still work if request_context is provided.").

(* ===================================================================== *)
(** * The claims' vocabulary *)
(* ===================================================================== *)

(** A segment of a resource identifier: a non-empty run of characters
    other than the slash. *)
Fixpoint slash_free (s : string) : bool :=
  match s with
  | EmptyString => true
  | String c s' => bool_decide (c ≠ "/"%char) && slash_free s'
  end.

Definition segment (s : string) : Prop := s ≠ "" ∧ slash_free s = true.

(** [x] reads [/subscriptions/S/resourceGroups/G/providers/P/T/N] from its
    first to its last character, the three keywords in any letter case. *)
Definition resource_id_form (x S G N : string) : Prop :=
  ∃ l1 l2 l3 P T,
    x = l1 +:+ S +:+ l2 +:+ G +:+ l3 +:+ P +:+ "/" +:+ T +:+ "/" +:+ N
    ∧ Re.ci_eq "/subscriptions/" l1 = true
    ∧ Re.ci_eq "/resourceGroups/" l2 = true
    ∧ Re.ci_eq "/providers/" l3 = true
    ∧ segment S ∧ segment G ∧ segment P ∧ segment T ∧ segment N.

(** Where a segment has to stop: at the end of the text or at a slash. *)
Definition stops (rest : string) : Prop :=
  match rest with
  | EmptyString => True
  | String c _ => Re.not_slash c = false
  end.

(** What a match is, read off the pattern. *)
Fixpoint matches (p : list Re.item) (g : gmap string string) (s : string)
  (g' : gmap string string) : Prop :=
  match p with
  | [] => Re.at_eol s = true ∧ g' = g
  | Re.Lit l :: p' =>
      ∃ l' rest, s = l' +:+ rest ∧ Re.ci_eq l l' = true ∧ matches p' g rest g'
  | Re.NamedSeg name :: p' =>
      ∃ seg rest, s = seg +:+ rest ∧ seg ≠ "" ∧ Re.no_slash seg = true
                  ∧ matches p' (<[name := seg]> g) rest g'
  end.

Definition import_error_message : string :=
  "azure-mgmt-containerservice package is required for Azure multi-tenant execution. "
  +:+ "Install it with: pip install azure-mgmt-containerservice".

(** The trimmed command of an invocation. *)
Definition command_of (params : gmap string string) : string :=
  Py.strip (default "" (params !! "args")).

(** The executor the router picks for an extractor outcome. *)
Definition chosen (env : Env) (azure_ctx : option AzureResourceContext)
  (kubectl_args : string) : M CommandResult :=
  match azure_ctx with
  | Some c => _execute_kubectl_via_azure_sdk env c kubectl_args
  | None => _execute_kubectl_locally env kubectl_args
  end.

Definition chosen_call (azure_ctx : option AzureResourceContext)
  (kubectl_args : string) : executor_call :=
  match azure_ctx with
  | Some c => RemoteExecutor c kubectl_args
  | None => LocalExecutor kubectl_args
  end.

(** The warning of the policy gate, if the gate fires. *)
Definition gate_events (verbs : list string) (kubectl_args : string) : list event :=
  match Py.split kubectl_args with
  | w :: _ =>
      if bool_decide (Py.lower w ∈ verbs)
      then [Log LWarning
              ("Attempted to execute potentially dangerous kubectl command: "
               +:+ Py.lower w)]
      else []
  | [] => []
  end.

(** The structured error built for an exception that leaves an executor. *)
Definition caught (params : gmap string string) (e : exn) : StructuredToolResult :=
  {| status := ERROR;
     error := Some match exn_cls e with
                   | ImportError | NotImplementedError => exn_str e
                   | _ => "Failed to execute kubectl command: " +:+ exn_str e
                   end;
     return_code := None; data := None; params := params |}.

(** The structured result built from an executor's result, or what the
    normaliser raises on the way. *)
Definition assembled (env : Env) (params : gmap string string)
  (result : CommandResult) : M StructuredToolResult :=
  if decide (exit_code result ≠ Some 0) then
    mret {| status := ERROR;
            error := Some ("kubectl command failed (exit code "
                           +:+ fmt_int (exit_code result) +:+ "): "
                           +:+ stderr result);
            return_code := exit_code result;
            data := None; params := params |}
  else
    data ← _parse_kubectl_output env (stdout result);
    mret {| status := SUCCESS;
            error := None;
            return_code := exit_code result;
            data := Some data;
            params := params |}.

(** The request context carries no tenant: it is absent, empty, or names
    a cloud whose lower-case form is not ["azure"] (a missing [cloud] key
    reads as the empty string). *)
Definition no_tenant_context (context : ToolInvokeContext) : Prop :=
  match request_context context with
  | None => True
  | Some rc => rc = ∅ ∨ Py.lower (default "" (rc !! "cloud")) ≠ "azure"
  end.

(** The request context names the supported cloud. *)
Definition names_azure (rc : gmap string string) : Prop :=
  Py.lower (default "" (rc !! "cloud")) = "azure".

Definition missing_resource_id : string :=
  "Azure multi-tenant request missing 'resource_id' field. " +:+ schema_hint.

Definition missing_access_token : string :=
  "Azure multi-tenant request missing 'access_token' field. " +:+ schema_hint.

Definition unparsable (resource_id : string) : string :=
  "Failed to parse Azure resource_id: " +:+ resource_id +:+ ". " +:+ format_hint.

(** The extractor raises [ValueError(msg)]; the router, once it reaches the
    extractor, lets the error through; and no executor is entered. *)
Definition rejected (env : Env) (params : gmap string string)
  (context : ToolInvokeContext) (msg : string) : Prop :=
  raises (_get_resource_context context) (Exn ValueError msg)
  ∧ (command_of params ≠ "" →
     raises (_invoke env params context) (Exn ValueError msg))
  ∧ calls (_invoke env params context) = [].

(** Differing at most in the bearer token. *)
Definition same_but_token (c1 c2 : AzureResourceContext) : Prop :=
  cloud c1 = cloud c2 ∧ resource_id c1 = resource_id c2
  ∧ subscription_id c1 = subscription_id c2
  ∧ resource_group c1 = resource_group c2
  ∧ resource_name c1 = resource_name c2
  ∧ tenant_id c1 = tenant_id c2.

(** A text made of whitespace only (the empty text included). *)
Fixpoint blank (s : string) : bool :=
  match s with
  | EmptyString => true
  | String c s' => Py.isspace c && blank s'
  end.

(** The [args] parameter is absent, empty or blank. *)
Definition args_missing (params : gmap string string) : Prop :=
  match params !! "args" with
  | None => True
  | Some s => blank s = true
  end.

(* ===================================================================== *)
(** * Sample inputs and machines *)
(* ===================================================================== *)

Module Scenario.

Definition cluster_id : string :=
  "/subscriptions/sub-123/resourceGroups/rg-test/providers/Microsoft.ContainerService/managedClusters/cluster-test".

Definition padded_id : string :=
  " /subscriptions/a/resourceGroups/b/providers/c/d/e".

Definition with_context (rc : gmap string string) : ToolInvokeContext :=
  {| request_context := Some rc |}.

Definition no_context : ToolInvokeContext := {| request_context := None |}.

Definition aws : gmap string string := {[ "cloud" := "aws" ]}.

Definition upper_azure : gmap string string := {[ "cloud" := "AZURE" ]}.

Definition azure_only : gmap string string := {[ "cloud" := "azure" ]}.

Definition azure_no_token : gmap string string :=
  <["resource_id" := cluster_id]> azure_only.

Definition azure_bad_id : gmap string string :=
  <["access_token" := "t"]> (<["resource_id" := "invalid-id"]> azure_only).

Definition azure_full : gmap string string :=
  <["tenant_id" := "tenant-123"]>
    (<["access_token" := "token-123"]>
       (<["resource_id" := cluster_id]> azure_only)).

Definition tenant : AzureResourceContext :=
  {| cloud := "azure"; resource_id := cluster_id; access_token := "token-123";
     subscription_id := "sub-123"; resource_group := "rg-test";
     resource_name := "cluster-test"; tenant_id := Some "tenant-123" |}.

Definition other_token : AzureResourceContext :=
  {| cloud := "azure"; resource_id := cluster_id; access_token := "token-456";
     subscription_id := "sub-123"; resource_group := "rg-test";
     resource_name := "cluster-test"; tenant_id := Some "tenant-123" |}.

(** A request whose token happens to read like the cloud's name. *)
Definition azure_plain_token : gmap string string :=
  <["access_token" := "azure"]> (<["resource_id" := cluster_id]> azure_only).

Definition plain_token : AzureResourceContext :=
  {| cloud := "azure"; resource_id := cluster_id; access_token := "azure";
     subscription_id := "sub-123"; resource_group := "rg-test";
     resource_name := "cluster-test"; tenant_id := None |}.

Definition get_pods : gmap string string := {[ "args" := "get pods" ]}.


Definition blank_args : gmap string string := {[ "args" := "   " ]}.

(** The text [{"apiVersion": "v1"}]. *)
Definition version_json : string :=
  "{" +:+ String "034" "apiVersion" +:+ String "034" ": "
  +:+ String "034" "v1" +:+ String "034" "}".

Definition table : string :=
  "NAME    READY   STATUS" +:+ String "010" "pod-1   1/1     Running".

(** kubectl answers every command with [version_json]; the Azure SDK is
    installed and its run command reports exit code 0. *)
Definition healthy : Env :=
  {| json_loads := λ s,
       if decide (s = version_json)
       then inr (PyDict [("apiVersion", PyStr "v1")])
       else inl (Exn JSONDecodeError "Expecting value: line 1 column 1 (char 0)");
     shlex_split := λ s, inr (Py.split s);
     subprocess_run := λ _,
       inr {| returncode := 0; cp_stdout := version_json; cp_stderr := "" |};
     azure_sdk_installed := true;
     container_service_client := λ _ _, inr ();
     run_command := λ _ _ _ _ _,
       inr {| rcr_exit_code := Attribute (Some 0);
              rcr_logs := Attribute (Some table) |} |}.

(** kubectl exits with code 1. *)
Definition failing : Env :=
  {| json_loads := json_loads healthy;
     shlex_split := shlex_split healthy;
     subprocess_run := λ _,
       inr {| returncode := 1; cp_stdout := "";
              cp_stderr := "Error: kubectl not found" |};
     azure_sdk_installed := true;
     container_service_client := λ _ _, inr ();
     run_command := λ _ _ _ _ _,
       inr {| rcr_exit_code := Attribute (Some 1); rcr_logs := NoAttribute |} |}.

(** kubectl does not answer within the time limit; the remote call is
    refused. *)
Definition stuck : Env :=
  {| json_loads := json_loads healthy;
     shlex_split := shlex_split healthy;
     subprocess_run := λ _, inl (Exn TimeoutExpired "timed out");
     azure_sdk_installed := true;
     container_service_client := λ _ _, inr ();
     run_command := λ _ _ _ _ _, inl (Exn OtherException "Forbidden") |}.

(** A machine without the Azure SDK and without kubectl. *)
Definition bare : Env :=
  {| json_loads := json_loads healthy;
     shlex_split := shlex_split healthy;
     subprocess_run := λ _,
       inl (Exn OtherException "No such file or directory: 'kubectl'");
     azure_sdk_installed := false;
     container_service_client := λ _ _, inr ();
     run_command := λ _ _ _ _ _, inl (Exn OtherException "unreachable") |}.

(** A JSON text of 100000 opening brackets, nested deeper than
    [json.loads] can follow. *)
Definition deep_json : string := N.iter 100000 (String "[") "".

(** kubectl answers every command with [deep_json] and exit code 0, on
    which [json.loads] gives up with a RecursionError; the run command
    completes with a result object whose [exit_code] is [None]. *)
Definition overwhelmed : Env :=
  {| json_loads := λ s,
       if decide (s = deep_json)
       then inl (Exn RecursionError
                   "maximum recursion depth exceeded while decoding a JSON array from a unicode string")
       else json_loads healthy s;
     shlex_split := shlex_split healthy;
     subprocess_run := λ _,
       inr {| returncode := 0; cp_stdout := deep_json; cp_stderr := "" |};
     azure_sdk_installed := true;
     container_service_client := λ _ _, inr ();
     run_command := λ _ _ _ _ _,
       inr {| rcr_exit_code := Attribute None;
              rcr_logs := Attribute (Some table) |} |}.

End Scenario.

(* ===================================================================== *)
(** * Vocabulary of the further properties *)
(* ===================================================================== *)

(** The identifier written out from its five segments. *)
Definition written_id (S G P T N : string) : string :=
  "/subscriptions/" +:+ S +:+ "/resourceGroups/" +:+ G
  +:+ "/providers/" +:+ P +:+ "/" +:+ T +:+ "/" +:+ N.

(** The request context [rc] under [request_context]. *)
Definition carrying (rc : gmap string string) : ToolInvokeContext :=
  {| request_context := Some rc |}.

(** The four keys [_get_resource_context] looks up. *)
Definition context_keys : list string :=
  ["cloud"; "resource_id"; "access_token"; "tenant_id"].

(** The request context [rc] with [tok] as its access_token. *)
Definition with_token (rc : gmap string string) (tok : string)
  : ToolInvokeContext :=
  carrying (<["access_token" := tok]> rc).

(** Two outcomes of the extractor that agree but for the token of the
    context they return. *)
Definition same_outcome_but_token
  (o1 o2 : exn + option AzureResourceContext) : Prop :=
  match o1, o2 with
  | inl e1, inl e2 => e1 = e2
  | inr None, inr None => True
  | inr (Some c1), inr (Some c2) => same_but_token c1 c2
  | _, _ => False
  end.

(** The entry the router logs before it enters an executor. *)
Definition dispatch_entry (azure_ctx : option AzureResourceContext)
  (kubectl_args : string) : event :=
  match azure_ctx with
  | Some c =>
      Log LInfo ("Executing kubectl command via Azure SDK: kubectl "
                 +:+ kubectl_args
                 +:+ " (subscription=" +:+ subscription_id c
                 +:+ ", resource_group=" +:+ resource_group c
                 +:+ ", resource=" +:+ resource_name c +:+ ")")
  | None =>
      Log LInfo ("Executing kubectl command locally: kubectl " +:+ kubectl_args)
  end.

(** What the router logs for an exception that leaves an executor. *)
Definition caught_entries (kubectl_args : string) (e : exn) : list event :=
  match exn_cls e with
  | ImportError | NotImplementedError => []
  | _ => [Log LException ("Failed to execute kubectl command: " +:+ kubectl_args)]
  end.

(** [Scenario.bare] with the Azure SDK installed. *)
Definition bare_with_sdk_env : Env :=
  {| json_loads := json_loads Scenario.bare;
     shlex_split := shlex_split Scenario.bare;
     subprocess_run := subprocess_run Scenario.bare;
     azure_sdk_installed := true;
     container_service_client := λ _ _, inr ();
     run_command := λ _ _ _ _ _,
       inr {| rcr_exit_code := Attribute (Some 0);
              rcr_logs := Attribute (Some "ok") |} |}.

(** [Scenario.healthy] without kubectl. *)
Definition healthy_no_kubectl_env : Env :=
  {| json_loads := json_loads Scenario.healthy;
     shlex_split := λ _, inl (Exn ValueError "No closing quotation");
     subprocess_run := subprocess_run Scenario.bare;
     azure_sdk_installed := true;
     container_service_client := container_service_client Scenario.healthy;
     run_command := run_command Scenario.healthy |}.

(* ===================================================================== *)
(** * Strings *)
(* ===================================================================== *)

Lemma str_app_cons c s t : String c s +:+ t = String c (s +:+ t).
Proof. reflexivity. Qed.

Lemma str_app_nil_l t : "" +:+ t = t.
Proof. reflexivity. Qed.

Lemma str_app_nil_r s : s +:+ "" = s.
Proof. induction s as [|c s IH]; [done|]. by rewrite str_app_cons, IH. Qed.

Lemma str_app_assoc s t u : (s +:+ t) +:+ u = s +:+ t +:+ u.
Proof. induction s as [|c s IH]; [done|]. by rewrite !str_app_cons, IH. Qed.

Lemma lower_char_slash c : Py.lower_char c = "/"%char ↔ c = "/"%char.
Proof.
  split; [|by intros ->].
  destruct c as [[] [] [] [] [] [] [] []]; vm_compute; congruence.
Qed.

Lemma not_slash_spec c : Re.not_slash c = bool_decide (c ≠ "/"%char).
Proof.
  unfold Re.not_slash.
  destruct (decide (c = "/"%char)) as [->|Hne]; [done|].
  rewrite bool_decide_eq_false_2, bool_decide_eq_true_2; [done..|].
  by rewrite lower_char_slash.
Qed.

Lemma no_slash_spec s : Re.no_slash s = slash_free s.
Proof. induction s as [|c s IH]; simpl; [done|]. by rewrite not_slash_spec, IH. Qed.

Lemma slash_free_app s t : slash_free (s +:+ t) = slash_free s && slash_free t.
Proof.
  induction s as [|c s IH]; [done|].
  rewrite str_app_cons. simpl. rewrite IH. by rewrite andb_assoc.
Qed.

(* ===================================================================== *)
(** * The matcher *)
(* ===================================================================== *)

Lemma lit_prefix_sound l : ∀ s rest,
  Re.lit_prefix l s = Some rest →
  ∃ l', s = l' +:+ rest ∧ Re.ci_eq l l' = true.
Proof.
  induction l as [|a l IH]; intros s rest H; simpl in H.
  - exists "". by simplify_eq.
  - destruct s as [|b s]; [done|].
    destruct (Re.ci_char a b) eqn:Hab; [|done].
    destruct (IH _ _ H) as (l' & -> & Hl').
    exists (String b l'). split; [done|]. simpl. by rewrite Hab, Hl'.
Qed.

Lemma lit_prefix_complete l : ∀ l' rest,
  Re.ci_eq l l' = true → Re.lit_prefix l (l' +:+ rest) = Some rest.
Proof.
  induction l as [|a l IH]; intros [|b l'] rest H; simpl in H; try done.
  apply andb_true_iff in H as [Hab Hl].
  rewrite str_app_cons. simpl. rewrite Hab. by apply IH.
Qed.

Lemma seg_plus_sound {A} (k : string → string → option A) : ∀ s acc r,
  Re.seg_plus k acc s = Some r →
  ∃ seg rest, s = seg +:+ rest ∧ seg ≠ "" ∧ Re.no_slash seg = true
              ∧ k (acc +:+ seg) rest = Some r.
Proof.
  induction s as [|c s IH]; intros acc r H; simpl in H; [done|].
  destruct (Re.not_slash c) eqn:Hc; [|done].
  destruct (Re.seg_plus k (acc +:+ String c "") s) as [r0|] eqn:Hdeep.
  - simplify_eq. destruct (IH _ _ Hdeep) as (seg & rest & -> & _ & Hseg & Hk).
    exists (String c seg), rest. split_and!; [done|done|by simpl; rewrite Hc|].
    by rewrite str_app_assoc in Hk.
  - exists (String c ""), s. split_and!; [done|done|by simpl; rewrite Hc|done].
Qed.

Lemma seg_plus_stops {A} (k : string → string → option A) acc rest :
  stops rest → Re.seg_plus k acc rest = None.
Proof. destruct rest as [|c rest]; simpl; [done|]. by intros ->. Qed.

Lemma seg_plus_max {A} (k : string → string → option A) : ∀ seg acc rest r,
  seg ≠ "" → Re.no_slash seg = true → stops rest →
  k (acc +:+ seg) rest = Some r →
  Re.seg_plus k acc (seg +:+ rest) = Some r.
Proof.
  induction seg as [|c seg IH]; intros acc rest r Hne Hseg Hstop Hk; [done|].
  simpl in Hseg. apply andb_true_iff in Hseg as [Hc Hseg].
  rewrite str_app_cons. simpl. rewrite Hc.
  destruct seg as [|c' seg'].
  - rewrite str_app_nil_l, seg_plus_stops by done. done.
  - rewrite (IH (acc +:+ String c "") rest r); [done|done|done|done|].
    by rewrite str_app_assoc.
Qed.

Lemma ci_eq_stops l l' rest :
  Re.ci_eq (String "/" l) l' = true → stops (l' +:+ rest).
Proof.
  destruct l' as [|c l']; simpl; [done|].
  intros [Hc _]%andb_true_iff.
  unfold Re.ci_char in Hc. apply bool_decide_eq_true in Hc.
  unfold Re.not_slash. by rewrite bool_decide_eq_true_2.
Qed.

Lemma match_items_sound p : ∀ g s g',
  Re.match_items p g s = Some g' → matches p g s g'.
Proof.
  induction p as [|[l|name] p IH]; intros g s g' H; simpl in H |- *.
  - destruct (Re.at_eol s); by simplify_eq.
  - destruct (Re.lit_prefix l s) as [rest|] eqn:Hl; [|done].
    destruct (lit_prefix_sound _ _ _ Hl) as (l' & -> & Hl').
    exists l', rest. eauto.
  - destruct (seg_plus_sound _ _ _ _ H) as (seg & rest & -> & Hne & Hseg & Hk).
    exists seg, rest. rewrite str_app_nil_l in Hk. eauto.
Qed.

(** [strip] leaves no whitespace at the end. *)
Lemma rstrip_last s : ∀ t c, Py.rstrip s = t +:+ String c "" → Py.isspace c = false.
Proof.
  induction s as [|a s IH]; intros t c H; simpl in H.
  - by destruct t.
  - destruct (Py.rstrip s) as [|b r] eqn:Hr.
    + destruct (Py.isspace a) eqn:Ha; [by destruct t|].
      destruct t as [|x t]; rewrite ?str_app_cons, ?str_app_nil_l in H;
        simplify_eq; [done|by destruct t].
    + destruct t as [|x t]; [done|].
      rewrite str_app_cons in H. simplify_eq. by eapply IH.
Qed.

Lemma strip_last s t c : Py.strip s = t +:+ String c "" → Py.isspace c = false.
Proof. apply rstrip_last. Qed.

(* ===================================================================== *)
(** * Computations *)
(* ===================================================================== *)

Lemma bind_inr {A B} (m : M A) (f : A → M B) a :
  m.2 = inr a → m ≫= f = (m.1 ++ (f a).1, (f a).2).
Proof. unfold mbind, M_bind. by intros ->. Qed.

Lemma bind_inl {A B} (m : M A) (f : A → M B) e :
  m.2 = inl e → m ≫= f = (m.1, inl e).
Proof. unfold mbind, M_bind. by intros ->. Qed.

Lemma bind_log {B} lvl msg (k : M B) :
  (log lvl msg;; k) = (Log lvl msg :: k.1, k.2).
Proof. done. Qed.

Lemma bind_ret {A B} (a : A) (f : A → M B) : mret a ≫= f = f a.
Proof. unfold mbind, M_bind, mret, M_ret. simpl. by destruct (f a). Qed.

Lemma group_lookup m name v : m !! name = Some v → group m name = mret v.
Proof. unfold group. by intros ->. Qed.

(* ===================================================================== *)
(** * ResourceIdParser *)
(* ===================================================================== *)

Lemma ci_eq_slash l' : Re.ci_eq "/" l' = true → l' = "/".
Proof.
  destruct l' as [|c [|d l']]; simpl; try done.
  - rewrite andb_true_r. unfold Re.ci_char. intros H%bool_decide_eq_true.
    symmetry in H. change (Py.lower_char "/") with "/"%char in H.
    rewrite lower_char_slash in H. by subst.
  - by rewrite andb_false_r.
Qed.

Lemma re_match_inv s m :
  Re.re_match RESOURCE_ID_PATTERN s = Some m →
  ∃ l1 l2 l3 S G P T N rest,
    s = l1 +:+ S +:+ l2 +:+ G +:+ l3 +:+ P +:+ "/" +:+ T +:+ "/" +:+ N +:+ rest
    ∧ Re.ci_eq "/subscriptions/" l1 = true
    ∧ Re.ci_eq "/resourceGroups/" l2 = true
    ∧ Re.ci_eq "/providers/" l3 = true
    ∧ segment S ∧ segment G ∧ segment P ∧ segment T ∧ segment N
    ∧ Re.at_eol rest = true
    ∧ m !! "subscription" = Some S
    ∧ m !! "resource_group" = Some G
    ∧ m !! "resource_name" = Some N.
Proof.
  intros H%match_items_sound. unfold RESOURCE_ID_PATTERN in H. simpl in H.
  destruct H as (l1 & ? & -> & Hl1 & S & ? & -> & HS1 & HS2
                 & l2 & ? & -> & Hl2 & G & ? & -> & HG1 & HG2
                 & l3 & ? & -> & Hl3 & P & ? & -> & HP1 & HP2
                 & l4 & ? & -> & Hl4 & T & ? & -> & HT1 & HT2
                 & l5 & ? & -> & Hl5 & N & rest & -> & HN1 & HN2
                 & Heol & ->).
  apply ci_eq_slash in Hl4 as ->. apply ci_eq_slash in Hl5 as ->.
  rewrite no_slash_spec in HS2, HG2, HP2, HT2, HN2.
  exists l1, l2, l3, S, G, P, T, N, rest.
  split_and!; try done. 
Qed.

Lemma at_eol_strip x t rest :
  Py.strip x = t +:+ rest → Re.at_eol rest = true → rest = "".
Proof.
  intros Hx [H|H]%orb_true_iff; apply bool_decide_eq_true in H; [done|].
  subst rest. by apply strip_last in Hx.
Qed.

(** The value [_parse_resource_id] computes, apart from its log entries. *)
Lemma parse_resource_id_match x :
  match Re.re_match RESOURCE_ID_PATTERN (Py.strip x) with
  | Some m =>
      ∃ S G N, m !! "subscription" = Some S ∧ m !! "resource_group" = Some G
               ∧ m !! "resource_name" = Some N
               ∧ resource_id_form (Py.strip x) S G N
               ∧ returns (_parse_resource_id x) (Some (S, G, N))
  | None => returns (_parse_resource_id x) None
  end.
Proof.
  unfold _parse_resource_id.
  destruct (Re.re_match _ _) as [m|] eqn:Hm.
  - destruct (re_match_inv _ _ Hm)
      as (l1 & l2 & l3 & S & G & P & T & N & rest & Hx & Hl1 & Hl2 & Hl3
          & HS & HG & HP & HT & HN & Heol & HmS & HmG & HmN).
    assert (rest = "") as ->.
    { revert Heol. eapply at_eol_strip. rewrite Hx.
      by rewrite <-!str_app_assoc. }
    rewrite str_app_nil_r in Hx.
    exists S, G, N. split_and!; try done.
    { exists l1, l2, l3, P, T. by split_and!. }
    destruct x as [|c x]; [done|]. simpl negb. cbv iota.
    rewrite (group_lookup _ _ _ HmS), (group_lookup _ _ _ HmG),
      (group_lookup _ _ _ HmN), !bind_ret. done.
  - by destruct x.
Qed.

Lemma parse_resource_id_total x :
  ∃ v, returns (_parse_resource_id x) v.
Proof.
  pose proof (parse_resource_id_match x) as H.
  destruct (Re.re_match _ _); [|eauto].
  destruct H as (S & G & N & _ & _ & _ & _ & H). eauto.
Qed.

Lemma re_match_complete x S G N :
  resource_id_form x S G N →
  ∃ m, Re.re_match RESOURCE_ID_PATTERN x = Some m
       ∧ m !! "subscription" = Some S ∧ m !! "resource_group" = Some G
       ∧ m !! "resource_name" = Some N.
Proof.
  intros (l1 & l2 & l3 & P & T & -> & Hl1 & Hl2 & Hl3
          & [HS1 HS2] & [HG1 HG2] & [HP1 HP2] & [HT1 HT2] & [HN1 HN2]).
  rewrite <-no_slash_spec in HS2, HG2, HP2, HT2, HN2.
  eexists. split.
  - unfold Re.re_match, RESOURCE_ID_PATTERN. cbn [Re.match_items].
    rewrite (lit_prefix_complete _ _ _ Hl1).
    apply seg_plus_max; [done|done|by eapply ci_eq_stops|].
    rewrite str_app_nil_l, (lit_prefix_complete _ _ _ Hl2).
    apply seg_plus_max; [done|done|by eapply ci_eq_stops|].
    rewrite str_app_nil_l, (lit_prefix_complete _ _ _ Hl3).
    apply seg_plus_max; [done|done|by apply (ci_eq_stops "" "/")|].
    rewrite str_app_nil_l, (lit_prefix_complete "/" "/") by done.
    apply seg_plus_max; [done|done|by apply (ci_eq_stops "" "/")|].
    rewrite str_app_nil_l, (lit_prefix_complete "/" "/") by done.
    rewrite <-(str_app_nil_r N) at 1.
    apply seg_plus_max; [done|done|done|].
    rewrite str_app_nil_l. reflexivity.
  - done.
Qed.

Lemma parse_resource_id_iff x S G N :
  returns (_parse_resource_id x) (Some (S, G, N))
  ↔ resource_id_form (Py.strip x) S G N.
Proof.
  pose proof (parse_resource_id_match x) as H. split.
  - intros Hret. destruct (Re.re_match _ _) as [m|].
    + destruct H as (S' & G' & N' & _ & _ & _ & Hform & H).
      unfold returns in *. rewrite H in Hret. by simplify_eq.
    + unfold returns in *. rewrite H in Hret. by simplify_eq.
  - intros (m & Hm & HS & HG & HN)%re_match_complete. rewrite Hm in H.
    destruct H as (S' & G' & N' & ? & ? & ? & _ & H). by simplify_eq.
Qed.

Lemma parse_resource_id_none x :
  returns (_parse_resource_id x) None
  ↔ ¬ ∃ S G N, resource_id_form (Py.strip x) S G N.
Proof.
  split.
  - intros Hnone (S & G & N & Hform%parse_resource_id_iff).
    unfold returns in *. rewrite Hnone in Hform. done.
  - intros Hno. destruct (parse_resource_id_total x) as [[[[S G] N]|] Hv];
      [|done].
    destruct Hno. exists S, G, N. by apply parse_resource_id_iff.
Qed.

(* ===================================================================== *)
(** * The two executors *)
(* ===================================================================== *)

(** The result of the remote executor, case by case. *)
Lemma remote_outcome env c args :
  (_execute_kubectl_via_azure_sdk env c args).2 =
    if azure_sdk_installed env then
      match container_service_client env (access_token c) (subscription_id c) with
      | inl e =>
          inr {| exit_code := Some (-1); stdout := Some "";
                 stderr := "Azure SDK RunCommand failed: " +:+ exn_str e |}
      | inr _ =>
          match run_command env (access_token c) (subscription_id c)
                  (resource_group c) (resource_name c) ("kubectl " +:+ args) with
          | inl e =>
              inr {| exit_code := Some (-1); stdout := Some "";
                     stderr := "Azure SDK RunCommand failed: " +:+ exn_str e |}
          | inr r =>
              inr {| exit_code := attribute_or (rcr_exit_code r) 0;
                     stdout := attribute_or (rcr_logs r) "";
                     stderr := "" |}
          end
      end
    else inl (Exn ImportError import_error_message).
Proof.
  unfold _execute_kubectl_via_azure_sdk.
  destruct (azure_sdk_installed env); [|done].
  destruct (container_service_client env _ _) as [e|[]]; [done|].
  unfold mbind, M_bind, try_except, lift; simpl.
  by destruct (run_command env _ _ _ _ _) as [e|r].
Qed.

Lemma remote_calls env c args :
  calls (_execute_kubectl_via_azure_sdk env c args) = [RemoteExecutor c args].
Proof.
  unfold _execute_kubectl_via_azure_sdk, calls, trace.
  destruct (azure_sdk_installed env); [|done].
  destruct (container_service_client env _ _) as [e|[]]; [done|].
  unfold mbind, M_bind, try_except, lift; simpl.
  by destruct (run_command env _ _ _ _ _) as [e|r].
Qed.

(** The result of the local executor, case by case. *)
Lemma local_outcome env args :
  (_execute_kubectl_locally env args).2 =
    let failed e :=
      match exn_cls e with
      | TimeoutExpired =>
          {| exit_code := Some (-1); stdout := Some "";
             stderr := "Command timed out after 60 seconds: kubectl " +:+ args |}
      | _ =>
          {| exit_code := Some (-1); stdout := Some "";
             stderr := "Failed to execute kubectl command: " +:+ exn_str e |}
      end in
    match shlex_split env args with
    | inl e => inr (failed e)
    | inr argv =>
        match subprocess_run env ("kubectl" :: argv) with
        | inl e => inr (failed e)
        | inr p => inr {| exit_code := Some (returncode p);
                          stdout := Some (cp_stdout p);
                          stderr := cp_stderr p |}
        end
    end.
Proof.
  unfold _execute_kubectl_locally.
  destruct (shlex_split env args) as [e|argv].
  { by destruct e as [[] ?]. }
  unfold mbind, M_bind, try_except, lift; simpl.
  destruct (subprocess_run env _) as [e|p]; [|done].
  by destruct e as [[] ?].
Qed.

Lemma local_calls env args :
  calls (_execute_kubectl_locally env args) = [LocalExecutor args].
Proof.
  unfold _execute_kubectl_locally, calls, trace.
  destruct (shlex_split env args) as [e|argv].
  { by destruct e as [[] ?]. }
  unfold mbind, M_bind, try_except, lift; simpl.
  destruct (subprocess_run env _) as [e|p]; [|done].
  by destruct e as [[] ?].
Qed.

(* ===================================================================== *)
(** * Splitting a trimmed command *)
(* ===================================================================== *)

Lemma truthy_false s : Py.truthy s = false ↔ s = "".
Proof. by destruct s. Qed.

Lemma truthy_true s : Py.truthy s = true ↔ s ≠ "".
Proof. by destruct s. Qed.

Lemma lstrip_head s c t : Py.lstrip s = String c t → Py.isspace c = false.
Proof.
  induction s as [|a s IH]; simpl; [done|].
  destruct (Py.isspace a) eqn:Ha; [done|]. by intros [= -> _].
Qed.

Lemma rstrip_head s c t : Py.rstrip s = String c t → ∃ s', s = String c s'.
Proof.
  destruct s as [|a s]; simpl; [done|].
  destruct (Py.rstrip s); [destruct (Py.isspace a)|]; intros [= -> _]; eauto.
Qed.

Lemma strip_head s c t : Py.strip s = String c t → Py.isspace c = false.
Proof.
  unfold Py.strip. intros [s' Hs']%rstrip_head. by eapply lstrip_head.
Qed.

Lemma split_from_cur cur s : cur ≠ "" → Py.split_from cur s ≠ [].
Proof.
  revert cur. induction s as [|a s IH]; intros cur Hcur; simpl.
  - by destruct cur.
  - destruct (Py.isspace a); [by destruct cur|].
    apply IH. by destruct cur.
Qed.

Lemma split_strip x :
  Py.strip x ≠ "" → ∃ w ws, Py.split (Py.strip x) = w :: ws.
Proof.
  intros Hne. destruct (Py.strip x) as [|c t] eqn:Hx; [done|].
  apply strip_head in Hx. unfold Py.split. simpl. rewrite Hx.
  destruct (Py.split_from _ t) as [|w ws] eqn:Hs; [|eauto].
  by apply split_from_cur in Hs.
Qed.

Lemma calls_of_app tr1 tr2 : calls_of (tr1 ++ tr2) = calls_of tr1 ++ calls_of tr2.
Proof.
  induction tr1 as [|[lvl msg|c] tr1 IH]; simpl; [done|done|by rewrite IH].
Qed.

(* ===================================================================== *)
(** * ContextExtractor: it enters no executor *)
(* ===================================================================== *)

Lemma parse_resource_id_calls x : calls (_parse_resource_id x) = [].
Proof.
  unfold _parse_resource_id, calls, trace.
  destruct x as [|c x]; [done|]. simpl negb. cbv iota.
  destruct (Re.re_match _ _) as [m|]; [|done].
  unfold group.
  by destruct (m !! "subscription"), (m !! "resource_group"),
    (m !! "resource_name").
Qed.

Lemma get_resource_context_calls context :
  calls (_get_resource_context context) = [].
Proof.
  unfold _get_resource_context.
  destruct (request_context context) as [rc|]; [|done].
  destruct (decide (rc = ∅)); [done|].
  destruct (decide (_ ≠ "azure")); [done|].
  destruct (rc !! "resource_id") as [[|c rid]|]; [done| |done].
  destruct (rc !! "access_token") as [[|c' tok]|]; [done| |done].
  pose proof (parse_resource_id_calls (String c rid)) as Hp.
  unfold calls, trace in *.
  destruct (_parse_resource_id (String c rid)) as [tr [e|[[[S G] N]|]]];
    unfold mbind, M_bind; simpl in *; rewrite ?calls_of_app, ?Hp; done.
Qed.

(* ===================================================================== *)
(** * ExecutionRouter *)
(* ===================================================================== *)

Lemma chosen_calls env azure_ctx args :
  calls (chosen env azure_ctx args) = [chosen_call azure_ctx args].
Proof. destruct azure_ctx; [apply remote_calls|apply local_calls]. Qed.

(** A blank command: the error is returned before anything else happens. *)
Lemma invoke_blank verbs env params context :
  command_of params = "" →
  _invoke_with verbs env params context =
    mret {| status := ERROR;
            error := Some "Missing required parameter 'args'. Please provide kubectl command arguments.";
            return_code := None; data := None; params := params |}.
Proof. unfold command_of, _invoke_with. by intros ->. Qed.

(** The gate contributes its warning and nothing else. *)
Lemma invoke_gate verbs env params context :
  command_of params ≠ "" →
  _invoke_with verbs env params context =
    (gate_events verbs (command_of params)
       ++ (_invoke_with [] env params context).1,
     (_invoke_with [] env params context).2).
Proof.
  intros Hne. destruct (split_strip _ Hne) as (w & ws & Hsplit).
  unfold gate_events, _invoke_with, command_of in *.
  destruct (Py.strip _) as [|c t]; [done|]. simpl negb. cbv iota.
  rewrite Hsplit. simpl Py.truthy. cbv iota. unfold index0.
  rewrite !bind_ret.
  rewrite (bool_decide_eq_false_2 (_ ∈ [])) by (by intros ?%elem_of_nil).
  rewrite bind_ret.
  destruct (bool_decide _); [|by rewrite bind_ret; destruct (_ ≫= _)].
  by rewrite bind_log.
Qed.

Lemma gate_events_calls verbs args : calls_of (gate_events verbs args) = [].
Proof.
  unfold gate_events. destruct (Py.split args); [done|].
  by destruct (bool_decide _).
Qed.

(** The normaliser logs nothing and enters no executor. *)
Lemma parse_kubectl_output_trace env stdout :
  trace (_parse_kubectl_output env stdout) = [].
Proof.
  unfold _parse_kubectl_output, trace.
  destruct stdout as [stdout|]; [|done].
  destruct (negb _ || negb _); [done|].
  destruct (Py.startswith _ _ || Py.startswith _ _); [|done].
  unfold try_except, lift. simpl.
  destruct (json_loads env stdout) as [[[] msg]|v]; done.
Qed.

Ltac route_done :=
  repeat (simpl; rewrite ?calls_of_app, ?app_nil_r);
  repeat match goal with H : calls_of _ = _ |- _ => rewrite H end;
  by split.

(** A non-blank command: extractor, chosen executor, assembly. *)
Lemma invoke_route verbs env params context :
  command_of params ≠ "" →
  (_invoke_with verbs env params context).2 =
    match (_get_resource_context context).2 with
    | inl e => inl e
    | inr azure_ctx =>
        match (chosen env azure_ctx (command_of params)).2 with
        | inr result => (assembled env params result).2
        | inl e => inr (caught params e)
        end
    end
  ∧ calls (_invoke_with verbs env params context) =
    match (_get_resource_context context).2 with
    | inl _ => []
    | inr azure_ctx => [chosen_call azure_ctx (command_of params)]
    end.
Proof.
  intros Hne. rewrite (invoke_gate verbs) by done.
  unfold calls, trace. cbn [fst snd]. rewrite calls_of_app, gate_events_calls.
  rewrite app_nil_l.
  destruct (split_strip _ Hne) as (w & ws & Hsplit).
  pose proof (get_resource_context_calls context) as Hx.
  unfold _invoke_with. fold (command_of params).
  destruct (command_of params) as [|c t] eqn:Hcmd; [done|].
  rewrite <-Hcmd in *. rewrite (proj2 (truthy_true _) Hne).
  simpl negb. cbv iota. unfold command_of in Hsplit. fold (command_of params) in Hsplit.
  rewrite Hsplit. unfold index0. rewrite !bind_ret.
  rewrite (bool_decide_eq_false_2 (_ ∈ [])) by (by intros ?%elem_of_nil).
  rewrite bind_ret.
  unfold calls, trace in Hx.
  destruct (_get_resource_context context) as [tr [e|azure_ctx]]; [by simpl in *|].
  cbn [fst snd] in Hx |- *.
  pose proof (chosen_calls env azure_ctx (command_of params)) as Hc.
  unfold calls, trace, chosen in Hc |- *.
  unfold assembled, caught.
  destruct azure_ctx as [actx|].
  - rewrite (bind_inr (tr, _) _ (Some actx)) by done. cbv beta iota.
    revert Hc.
    generalize (_execute_kubectl_via_azure_sdk env actx (command_of params)).
    intros [tr' [e|result]] Hc; unfold mbind, M_bind, try_except; simpl in *.
    + destruct e as [[] msg]; route_done.
    + destruct (decide (exit_code result ≠ Some 0)); [route_done|].
      pose proof (parse_kubectl_output_trace env (stdout result)) as Hn.
      unfold trace in Hn.
      destruct (_parse_kubectl_output env (stdout result)) as [tr'' [e|v]];
        simpl in Hn; subst tr''; route_done.
  - rewrite (bind_inr (tr, _) _ None) by done. cbv beta iota.
    revert Hc.
    generalize (_execute_kubectl_locally env (command_of params)).
    intros [tr' [e|result]] Hc; unfold mbind, M_bind, try_except; simpl in *.
    + destruct e as [[] msg]; route_done.
    + destruct (decide (exit_code result ≠ Some 0)); [route_done|].
      pose proof (parse_kubectl_output_trace env (stdout result)) as Hn.
      unfold trace in Hn.
      destruct (_parse_kubectl_output env (stdout result)) as [tr'' [e|v]];
        simpl in Hn; subst tr''; route_done.
Qed.

(* ===================================================================== *)
(** * ContextExtractor *)
(* ===================================================================== *)

Lemma names_azure_nonempty rc : names_azure rc → rc ≠ ∅.
Proof. unfold names_azure. intros H ->. by rewrite lookup_empty in H. Qed.

Lemma get_resource_context_none context :
  no_tenant_context context → returns (_get_resource_context context) None.
Proof.
  unfold no_tenant_context, _get_resource_context, returns.
  destruct (request_context context) as [rc|]; [|done].
  destruct (decide (rc = ∅)); [done|]. intros [?|Hc]; [done|].
  by destruct (decide (_ ≠ "azure")).
Qed.

(** Past the cloud check, the extractor is decided by the two required
    fields and by the parser. *)
Lemma get_resource_context_azure context rc :
  request_context context = Some rc → names_azure rc →
  match rc !! "resource_id" with
  | Some (String _ _ as rid) =>
      match rc !! "access_token" with
      | Some (String _ _ as tok) =>
          match (_parse_resource_id rid).2 with
          | inr (Some (sub, grp, name)) =>
              returns (_get_resource_context context)
                (Some {| cloud := "azure"; resource_id := rid;
                         access_token := tok; subscription_id := sub;
                         resource_group := grp; resource_name := name;
                         tenant_id := rc !! "tenant_id" |})
          | inr None =>
              raises (_get_resource_context context)
                (Exn ValueError (unparsable rid))
          | inl e => raises (_get_resource_context context) e
          end
      | _ => raises (_get_resource_context context)
               (Exn ValueError missing_access_token)
      end
  | _ => raises (_get_resource_context context)
           (Exn ValueError missing_resource_id)
  end.
Proof.
  intros Hrc Hc. pose proof (names_azure_nonempty _ Hc) as Hne.
  unfold names_azure in Hc.
  unfold _get_resource_context, returns, raises. rewrite Hrc.
  destruct (decide (rc = ∅)); [done|].
  destruct (decide (_ ≠ "azure")); [done|]. rewrite Hc.
  destruct (rc !! "resource_id") as [[|c rid]|]; [done| |done].
  destruct (rc !! "access_token") as [[|c' tok]|]; [done| |done].
  destruct (_parse_resource_id (String c rid)) as [tr [e|[[[S G] N]|]]]; done.
Qed.

Ltac trace_done :=
  repeat (simpl; rewrite <-?app_assoc, ?app_nil_r); reflexivity.

(** The trace of the router on a non-blank command. *)
Lemma invoke_trace verbs env params context :
  command_of params ≠ "" →
  trace (_invoke_with verbs env params context) =
    gate_events verbs (command_of params)
    ++ trace (_get_resource_context context)
    ++ match (_get_resource_context context).2 with
       | inl _ => []
       | inr azure_ctx =>
           dispatch_entry azure_ctx (command_of params)
           :: trace (chosen env azure_ctx (command_of params))
           ++ match (chosen env azure_ctx (command_of params)).2 with
              | inl e => caught_entries (command_of params) e
              | inr _ => []
              end
       end.
Proof.
  intros Hne. rewrite (invoke_gate verbs) by done.
  unfold trace. cbn [fst]. f_equal.
  destruct (split_strip _ Hne) as (w & ws & Hsplit).
  unfold _invoke_with. fold (command_of params).
  destruct (command_of params) as [|c t] eqn:Hcmd; [done|].
  rewrite <-Hcmd in *. rewrite (proj2 (truthy_true _) Hne).
  simpl negb. cbv iota. unfold command_of in Hsplit. fold (command_of params) in Hsplit.
  rewrite Hsplit. unfold index0. rewrite !bind_ret.
  rewrite (bool_decide_eq_false_2 (_ ∈ [])) by (by intros ?%elem_of_nil).
  rewrite bind_ret.
  destruct (_get_resource_context context) as [tr [e|azure_ctx]];
    [by simpl; rewrite app_nil_r|].
  cbn [fst snd]. unfold chosen, dispatch_entry, caught_entries.
  destruct azure_ctx as [actx|].
  - rewrite (bind_inr (tr, _) _ (Some actx)) by done. cbv beta iota.
    generalize (_execute_kubectl_via_azure_sdk env actx (command_of params)).
    intros [tr' [e|result]]; unfold mbind, M_bind, try_except.
    + destruct e as [[] msg]; trace_done.
    + simpl. destruct (decide (exit_code result ≠ Some 0)); [trace_done|].
      pose proof (parse_kubectl_output_trace env (stdout result)) as Hn.
      unfold trace in Hn.
      destruct (_parse_kubectl_output env (stdout result)) as [tr'' [e|v]];
        simpl in Hn; subst tr''; trace_done.
  - rewrite (bind_inr (tr, _) _ None) by done. cbv beta iota.
    generalize (_execute_kubectl_locally env (command_of params)).
    intros [tr' [e|result]]; unfold mbind, M_bind, try_except.
    + destruct e as [[] msg]; trace_done.
    + simpl. destruct (decide (exit_code result ≠ Some 0)); [trace_done|].
      pose proof (parse_kubectl_output_trace env (stdout result)) as Hn.
      unfold trace in Hn.
      destruct (_parse_kubectl_output env (stdout result)) as [tr'' [e|v]];
        simpl in Hn; subst tr''; trace_done.
Qed.

(* ===================================================================== *)
(** * Claims *)
(* ===================================================================== *)

(** C1, as stated, fails: [_parse_resource_id] trims its argument before
    matching, so an identifier with a leading blank is parsed although the
    text as a whole does not have the five-segment form. *)
Lemma C1_whole_string_counterexample :
  returns (_parse_resource_id Scenario.padded_id) (Some ("a", "b", "e"))
  ∧ ¬ resource_id_form Scenario.padded_id "a" "b" "e".
Proof.
  split; [by vm_compute|].
  intros (l1 & l2 & l3 & P & T & Hx & Hl1 & _).
  destruct l1 as [|c l1]; [done|].
  unfold Scenario.padded_id in Hx. rewrite str_app_cons in Hx.
  injection Hx as <- _. by vm_compute in Hl1.
Qed.

(** C1, amended: for every input string, [_parse_resource_id] returns the
    triple (S, G, N) exactly when the string with its leading and trailing
    whitespace removed has, from start to end and with the keywords in any
    letter case, the form /subscriptions/S/resourceGroups/G/providers/P/T/N
    with each segment a non-empty run of non-slash characters; for every
    other string it returns None and it never raises; in particular it
    returns None for the empty string, "/invalid/resource/id",
    "/subscriptions/sub-123" and "not-a-resource-id". *)
Theorem C1_parse_resource_id_trimmed :
  (∀ x,
     (∀ S G N, returns (_parse_resource_id x) (Some (S, G, N))
               ↔ resource_id_form (Py.strip x) S G N)
     ∧ (returns (_parse_resource_id x) None
        ↔ ¬ ∃ S G N, resource_id_form (Py.strip x) S G N)
     ∧ (∃ v, returns (_parse_resource_id x) v))
  ∧ Forall (λ x, returns (_parse_resource_id x) None)
      [""; "/invalid/resource/id"; "/subscriptions/sub-123"; "not-a-resource-id"].
Proof.
  split.
  - intros x. split_and!.
    + intros S G N. apply parse_resource_id_iff.
    + apply parse_resource_id_none.
    + apply parse_resource_id_total.
  - repeat constructor; by vm_compute.
Qed.

(** C2, as stated, fails: the cloud value is lower-cased before it is
    compared, so a context whose [cloud] is "AZURE", which is not the
    literal "azure", is taken for a tenant context and, lacking a
    resource_id, is rejected with a ValueError. *)
Lemma C2_cloud_case_counterexample :
  Scenario.upper_azure !! "cloud" = Some "AZURE"
  ∧ "AZURE" ≠ "azure"
  ∧ raises (_get_resource_context (Scenario.with_context Scenario.upper_azure))
      (Exn ValueError missing_resource_id)
  ∧ raises (_invoke Scenario.healthy Scenario.get_pods
              (Scenario.with_context Scenario.upper_azure))
      (Exn ValueError missing_resource_id).
Proof. split_and!; by vm_compute. Qed.

(** C2, amended: for every invocation whose request context is absent or
    empty, or whose [cloud] value in lower case (the empty string when the
    key is missing) is not "azure", [_get_resource_context] returns None
    and does not raise, and the router, given a non-blank command, enters
    the local executor and no other. *)
Theorem C2_no_tenant_context env params context :
  no_tenant_context context →
  returns (_get_resource_context context) None
  ∧ (command_of params ≠ "" →
     calls (_invoke env params context) = [LocalExecutor (command_of params)]).
Proof.
  intros Hno%get_resource_context_none. split; [done|]. intros Hcmd.
  destruct (invoke_route dangerous_commands env params context Hcmd) as [_ Hcalls].
  unfold returns in Hno. rewrite Hno in Hcalls. done.
Qed.

Lemma C2_no_tenant_context_witness :
  returns (_get_resource_context (Scenario.with_context Scenario.aws)) None
  ∧ calls (_invoke Scenario.healthy Scenario.get_pods
             (Scenario.with_context Scenario.aws))
    = [LocalExecutor "get pods"].
Proof.
  destruct (C2_no_tenant_context Scenario.healthy Scenario.get_pods
              (Scenario.with_context Scenario.aws)) as [H1 H2].
  - right. vm_compute. discriminate.
  - split; [exact H1|]. apply H2. vm_compute. discriminate.
Defined.

Lemma rejected_intro env params context msg :
  raises (_get_resource_context context) (Exn ValueError msg) →
  rejected env params context msg.
Proof.
  intros Hraise. split; [done|].
  destruct (decide (command_of params = "")) as [Hblank|Hcmd].
  - split; [done|]. unfold _invoke. by rewrite invoke_blank.
  - destruct (invoke_route dangerous_commands env params context Hcmd)
      as [Hout Hcalls].
    unfold raises in *. rewrite Hraise in Hout, Hcalls. done.
Qed.

(** C3: for every request context that names the supported cloud (in any
    letter case), [_get_resource_context] raises a ValueError
    - naming 'resource_id' and the expected keys when resource_id is
      missing or empty;
    - naming 'access_token' and the expected keys when resource_id is
      there and access_token is missing or empty;
    - naming the parse failure and the expected format when both are there
      and the resource_id does not parse;
    the router, once it reaches the extractor (the command is not blank),
    raises this same error, and in no case enters an executor. *)
Theorem C3_validation_error env params context rc :
  request_context context = Some rc → names_azure rc →
  (Py.truthy_opt (rc !! "resource_id") = false →
   rejected env params context
     "Azure multi-tenant request missing 'resource_id' field. Request context must include: cloud='azure', resource_id, access_token")
  ∧ (Py.truthy_opt (rc !! "resource_id") = true →
     Py.truthy_opt (rc !! "access_token") = false →
     rejected env params context
       "Azure multi-tenant request missing 'access_token' field. Request context must include: cloud='azure', resource_id, access_token")
  ∧ (∀ rid, rc !! "resource_id" = Some rid → rid ≠ "" →
     Py.truthy_opt (rc !! "access_token") = true →
     (¬ ∃ S G N, resource_id_form (Py.strip rid) S G N) →
     rejected env params context
       ("Failed to parse Azure resource_id: " +:+ rid
        +:+ ". Expected format: /subscriptions/{sub}/resourceGroups/{rg}/providers/{provider}/{resourceType}/{name}")).
Proof.
  intros Hrc Hazure.
  pose proof (get_resource_context_azure context rc Hrc Hazure) as H.
  split_and!.
  - intros Hid. apply rejected_intro.
    by destruct (rc !! "resource_id") as [[|c rid]|].
  - intros Hid Htok. apply rejected_intro.
    destruct (rc !! "resource_id") as [[|c rid]|]; [done| |done].
    by destruct (rc !! "access_token") as [[|c' tok]|].
  - intros rid Hid Hne Htok Hform. apply rejected_intro.
    rewrite Hid in H. destruct rid as [|c rid]; [done|].
    destruct (rc !! "access_token") as [[|c' tok]|]; [done| |done].
    apply parse_resource_id_none in Hform.
    unfold returns in Hform. rewrite Hform in H. done.
Qed.

Lemma C3_validation_error_witness :
  rejected Scenario.healthy Scenario.get_pods
    (Scenario.with_context Scenario.azure_only)
    "Azure multi-tenant request missing 'resource_id' field. Request context must include: cloud='azure', resource_id, access_token"
  ∧ rejected Scenario.healthy Scenario.get_pods
      (Scenario.with_context Scenario.azure_no_token)
      "Azure multi-tenant request missing 'access_token' field. Request context must include: cloud='azure', resource_id, access_token"
  ∧ rejected Scenario.healthy Scenario.get_pods
      (Scenario.with_context Scenario.azure_bad_id)
      "Failed to parse Azure resource_id: invalid-id. Expected format: /subscriptions/{sub}/resourceGroups/{rg}/providers/{provider}/{resourceType}/{name}".
Proof.
  split_and!.
  - destruct (C3_validation_error Scenario.healthy Scenario.get_pods
                (Scenario.with_context Scenario.azure_only) Scenario.azure_only)
      as (H & _ & _); [reflexivity|by vm_compute|].
    apply H. by vm_compute.
  - destruct (C3_validation_error Scenario.healthy Scenario.get_pods
                (Scenario.with_context Scenario.azure_no_token)
                Scenario.azure_no_token)
      as (_ & H & _); [reflexivity|by vm_compute|].
    apply H; by vm_compute.
  - destruct (C3_validation_error Scenario.healthy Scenario.get_pods
                (Scenario.with_context Scenario.azure_bad_id)
                Scenario.azure_bad_id)
      as (_ & _ & H); [reflexivity|by vm_compute|].
    apply (H "invalid-id"); [by vm_compute|discriminate|by vm_compute|].
    apply parse_resource_id_none. by vm_compute.
Defined.

Lemma contains_mid pre needle post : Py.contains needle (pre +:+ needle +:+ post).
Proof. by exists pre, post. Qed.

Lemma contains_end pre needle : Py.contains needle (pre +:+ needle).
Proof. exists pre, "". by rewrite str_app_nil_r. Qed.



(** C5: what the router makes of the CommandResult the chosen executor
    returns.  For an exit code other than 0 it returns a result with
    status ERROR, the message "kubectl command failed (exit code N): "
    followed by the stderr text (so the message contains both), return
    code N and the invocation's arguments as [params].  For exit code 0 it
    returns status SUCCESS with the normalised stdout as data, return code
    0 and the arguments as [params], if the normaliser returns; if the
    normaliser raises, which it does when [json.loads] raises anything but
    a JSONDecodeError, [_invoke] returns no result and raises the same
    exception, because the normaliser is called after the [try]
    statement. *)
Theorem C5_result_assembly env kwargs context azure_ctx result :
  command_of kwargs ≠ "" →
  returns (_get_resource_context context) azure_ctx →
  returns (chosen env azure_ctx (command_of kwargs)) result →
  (exit_code result ≠ Some 0 →
   returns (_invoke env kwargs context)
     {| status := ERROR;
        error := Some ("kubectl command failed (exit code "
                       +:+ fmt_int (exit_code result) +:+ "): "
                       +:+ stderr result);
        return_code := exit_code result;
        data := None; params := kwargs |}
   ∧ Py.contains (fmt_int (exit_code result))
       ("kubectl command failed (exit code "
        +:+ fmt_int (exit_code result) +:+ "): " +:+ stderr result)
   ∧ Py.contains (stderr result)
       ("kubectl command failed (exit code "
        +:+ fmt_int (exit_code result) +:+ "): " +:+ stderr result))
  ∧ (exit_code result = Some 0 →
     (∀ v, returns (_parse_kubectl_output env (stdout result)) v →
           returns (_invoke env kwargs context)
             {| status := SUCCESS; error := None; return_code := Some 0;
                data := Some v; params := kwargs |})
     ∧ (∀ e, raises (_parse_kubectl_output env (stdout result)) e →
             raises (_invoke env kwargs context) e)).
Proof.
  intros Hcmd Hctx Hexec.
  destruct (invoke_route dangerous_commands env kwargs context Hcmd) as [Hout _].
  unfold returns, raises in *. rewrite Hctx, Hexec in Hout.
  unfold _invoke. rewrite Hout. unfold assembled. split.
  - intros Hne. rewrite decide_True by done. split_and!; [done| |].
    + apply contains_mid.
    + rewrite <-!str_app_assoc. apply contains_end.
  - intros Heq. rewrite decide_False by (by intros ?).
    rewrite Heq. split.
    + intros v Hv. by rewrite (bind_inr _ _ v) by done.
    + intros e He. by rewrite (bind_inl _ _ e) by done.
Qed.

Lemma C5_result_assembly_witness :
  returns (_invoke Scenario.failing Scenario.get_pods Scenario.no_context)
    {| status := ERROR;
       error := Some "kubectl command failed (exit code 1): Error: kubectl not found";
       return_code := Some 1; data := None; params := Scenario.get_pods |}
  ∧ returns (_invoke Scenario.healthy Scenario.get_pods Scenario.no_context)
      {| status := SUCCESS; error := None; return_code := Some 0;
         data := Some (PyDict [("apiVersion", PyStr "v1")]);
         params := Scenario.get_pods |}
  ∧ raises (_invoke Scenario.overwhelmed Scenario.get_pods Scenario.no_context)
      (Exn RecursionError
         "maximum recursion depth exceeded while decoding a JSON array from a unicode string").
Proof.
  split_and!.
  - destruct (C5_result_assembly Scenario.failing Scenario.get_pods
                Scenario.no_context None
                {| exit_code := Some 1; stdout := Some "";
                   stderr := "Error: kubectl not found" |})
      as [Herr _]; [by vm_compute|reflexivity|reflexivity|].
    destruct Herr as [H _]; [discriminate|exact H].
  - destruct (C5_result_assembly Scenario.healthy Scenario.get_pods
                Scenario.no_context None
                {| exit_code := Some 0; stdout := Some Scenario.version_json;
                   stderr := "" |})
      as [_ Hok]; [by vm_compute|reflexivity|reflexivity|].
    destruct Hok as [H _]; [reflexivity|]. apply H. reflexivity.
  - destruct (C5_result_assembly Scenario.overwhelmed Scenario.get_pods
                Scenario.no_context None
                {| exit_code := Some 0; stdout := Some Scenario.deep_json;
                   stderr := "" |})
      as [_ Hok]; [by vm_compute|reflexivity|reflexivity|].
    destruct Hok as [_ H]; [reflexivity|]. apply H. by vm_compute.
Defined.

Lemma repr_same_but_token c1 c2 : same_but_token c1 c2 → __repr__ c1 = __repr__ c2.
Proof.
  intros (Hc & _ & Hs & Hg & Hn & Ht). unfold __repr__.
  by rewrite Hc, Hs, Hg, Hn, Ht.
Qed.

Lemma get_resource_context_some context c :
  returns (_get_resource_context context) (Some c) →
  ∃ rc, request_context context = Some rc
    ∧ names_azure rc
    ∧ cloud c = "azure"
    ∧ rc !! "resource_id" = Some (resource_id c)
    ∧ resource_id c ≠ ""
    ∧ rc !! "access_token" = Some (access_token c)
    ∧ access_token c ≠ ""
    ∧ tenant_id c = rc !! "tenant_id"
    ∧ returns (_parse_resource_id (resource_id c))
        (Some (subscription_id c, resource_group c, resource_name c)).
Proof.
  intros Hret. destruct (request_context context) as [rc|] eqn:Hrc.
  2:{ unfold _get_resource_context, returns in Hret. by rewrite Hrc in Hret. }
  exists rc. split; [done|].
  destruct (decide (names_azure rc)) as [Haz|Hno].
  2:{ unfold returns in Hret.
      rewrite (get_resource_context_none context) in Hret; [done|].
      unfold no_tenant_context. rewrite Hrc. by right. }
  pose proof (get_resource_context_azure context rc Hrc Haz) as H.
  unfold returns, raises in *.
  destruct (rc !! "resource_id") as [[|a rid]|]; [congruence| |congruence].
  destruct (rc !! "access_token") as [[|a' tok]|]; [congruence| |congruence].
  destruct (_parse_resource_id (String a rid)) as [tr [e|[[[S G] N]|]]] eqn:Hp;
    simpl in H; [congruence| |congruence].
  rewrite H in Hret. injection Hret as <-. simpl. rewrite Hp. by split_and!.
Qed.

(** C6, as stated, fails where it says that the representation never
    contains the token's value: a token that reads "azure" occurs in the
    representation, which shows the cloud's name. *)
Lemma C6_token_text_counterexample :
  returns (_get_resource_context
             (Scenario.with_context Scenario.azure_plain_token))
    (Some Scenario.plain_token)
  ∧ Py.contains (access_token Scenario.plain_token)
      (__repr__ Scenario.plain_token).
Proof.
  split; [by vm_compute|].
  by exists "AzureResourceContext(cloud=",
    ", subscription_id=sub-123, resource_group=rg-test, resource_name=cluster-test, tenant_id=None, access_token=***REDACTED***)".
Qed.

(** C6, amended: every context [_get_resource_context] returns carries the values
    of the request context it was built from: cloud is "azure" (the
    request's cloud in lower case), resource_id, access_token and tenant_id
    are the request's, and subscription_id, resource_group and
    resource_name are the parts the parser reads off the resource_id.  Its
    [__repr__] does not depend on the token: two contexts that differ at
    most in access_token have the same representation, which shows the
    token as a fixed redaction marker and nothing else of it. *)
Theorem C6_context_fields_and_redaction context c :
  returns (_get_resource_context context) (Some c) →
  (∃ rc, request_context context = Some rc
     ∧ cloud c = "azure"
     ∧ cloud c = Py.lower (default "" (rc !! "cloud"))
     ∧ rc !! "resource_id" = Some (resource_id c)
     ∧ rc !! "access_token" = Some (access_token c)
     ∧ rc !! "tenant_id" = tenant_id c
     ∧ resource_id_form (Py.strip (resource_id c))
         (subscription_id c) (resource_group c) (resource_name c))
  ∧ (∀ c', same_but_token c c' → __repr__ c' = __repr__ c)
  ∧ (∃ shown, __repr__ c = shown +:+ "access_token=***REDACTED***)"
              ∧ ∀ c', same_but_token c c' →
                      __repr__ c' = shown +:+ "access_token=***REDACTED***)").
Proof.
  intros (rc & Hrc & Haz & Hcloud & Hid & _ & Htok & _ & Hten & Hparse)
    %get_resource_context_some.
  split_and!.
  - exists rc. split_and!; try done.
    + by rewrite Hcloud.
    + by apply parse_resource_id_iff.
  - intros c' H. symmetry. by apply repr_same_but_token.
  - eexists. split.
    + unfold __repr__. rewrite <-!str_app_assoc. reflexivity.
    + intros c' H. rewrite <-(repr_same_but_token c c' H).
      unfold __repr__. by rewrite <-!str_app_assoc.
Qed.

Lemma C6_context_fields_and_redaction_witness :
  cloud Scenario.tenant = "azure"
  ∧ Scenario.azure_full !! "access_token" = Some (access_token Scenario.tenant)
  ∧ __repr__ Scenario.other_token = __repr__ Scenario.tenant.
Proof.
  destruct (C6_context_fields_and_redaction
              (Scenario.with_context Scenario.azure_full) Scenario.tenant)
    as ((rc & Hrc & Hcloud & _ & _ & Htok & _) & Hrepr & _); [by vm_compute|].
  injection Hrc as <-.
  split_and!; [exact Hcloud|exact Htok|].
  apply Hrepr. by vm_compute.
Defined.

(** The representation of the sample tenant, in full. *)
Example repr_sample :
  __repr__ Scenario.tenant =
  "AzureResourceContext(cloud=azure, subscription_id=sub-123, resource_group=rg-test, resource_name=cluster-test, tenant_id=tenant-123, access_token=***REDACTED***)".
Proof. reflexivity. Qed.

Lemma blank_strip s : blank s = true → Py.strip s = "".
Proof.
  unfold Py.strip. induction s as [|c s IH]; simpl; [done|].
  intros [Hc Hs]%andb_true_iff. rewrite Hc. auto.
Qed.

Lemma strip_empty_truthy s :
  Py.strip s = "" ↔ negb (Py.truthy s) || negb (Py.truthy (Py.strip s)) = true.
Proof.
  split.
  - intros ->. by rewrite orb_true_r.
  - intros [H|H]%orb_true_iff; apply negb_true_iff, truthy_false in H;
      [by subst|done].
Qed.

(** C7: what [_parse_kubectl_output] does with a stdout text.  It returns
    the record with the single field "output" holding the empty string
    when the text is empty or blank; it returns what [json.loads] makes of
    the text when the trimmed text begins with an opening brace or bracket
    and [json.loads] succeeds; it returns the record with the single field
    "output" holding the text itself, unchanged, when the trimmed text
    begins otherwise or [json.loads] raises a JSONDecodeError.  It does
    raise: when the trimmed text begins with a brace or bracket and
    [json.loads] raises anything but a JSONDecodeError (a RecursionError
    for text nested too deeply, a plain ValueError for an integer of too
    many digits), the exception leaves the function. *)
Theorem C7_parse_kubectl_output env stdout :
  (Py.strip stdout = "" →
   returns (_parse_kubectl_output env (Some stdout))
     (PyDict [("output", PyStr "")]))
  ∧ (∀ parsed,
       Py.startswith "{" (Py.strip stdout) = true
       ∨ Py.startswith "[" (Py.strip stdout) = true →
       json_loads env stdout = inr parsed →
       returns (_parse_kubectl_output env (Some stdout)) parsed)
  ∧ (Py.strip stdout ≠ "" →
     (∃ e, json_loads env stdout = inl e ∧ exn_cls e = JSONDecodeError)
     ∨ Py.startswith "{" (Py.strip stdout) = false
       ∧ Py.startswith "[" (Py.strip stdout) = false →
     returns (_parse_kubectl_output env (Some stdout))
       (PyDict [("output", PyStr stdout)]))
  ∧ (∀ e,
       Py.startswith "{" (Py.strip stdout) = true
       ∨ Py.startswith "[" (Py.strip stdout) = true →
       json_loads env stdout = inl e →
       exn_cls e ≠ JSONDecodeError →
       raises (_parse_kubectl_output env (Some stdout)) e).
Proof.
  unfold _parse_kubectl_output, returns, raises. split_and!.
  - intros H%strip_empty_truthy. by rewrite H.
  - intros parsed Hstart Hjson.
    destruct (negb _ || negb _) eqn:Hblank.
    { apply strip_empty_truthy in Hblank. rewrite Hblank in Hstart.
      by destruct Hstart. }
    apply orb_true_iff in Hstart. rewrite Hstart.
    unfold try_except, lift. simpl. by rewrite Hjson.
  - intros Hne Hcase.
    destruct (negb _ || negb _) eqn:Hblank.
    { by apply strip_empty_truthy in Hblank. }
    destruct Hcase as [(e & Hjson & Hcls)|[H1 H2]].
    + destruct (Py.startswith _ _ || Py.startswith _ _); [|done].
      unfold try_except, lift. simpl. by rewrite Hjson, Hcls.
    + by rewrite H1, H2.
  - intros e Hstart Hjson Hcls.
    destruct (negb _ || negb _) eqn:Hblank.
    { apply strip_empty_truthy in Hblank. rewrite Hblank in Hstart.
      by destruct Hstart. }
    apply orb_true_iff in Hstart. rewrite Hstart.
    unfold try_except, lift. simpl. rewrite Hjson.
    by destruct e as [[] msg].
Qed.

Lemma C7_parse_kubectl_output_witness :
  returns (_parse_kubectl_output Scenario.healthy (Some "  "))
    (PyDict [("output", PyStr "")])
  ∧ returns (_parse_kubectl_output Scenario.healthy (Some Scenario.version_json))
      (PyDict [("apiVersion", PyStr "v1")])
  ∧ returns (_parse_kubectl_output Scenario.healthy (Some Scenario.table))
      (PyDict [("output", PyStr Scenario.table)])
  ∧ returns (_parse_kubectl_output Scenario.healthy (Some "{not json"))
      (PyDict [("output", PyStr "{not json")])
  ∧ raises (_parse_kubectl_output Scenario.overwhelmed (Some Scenario.deep_json))
      (Exn RecursionError
         "maximum recursion depth exceeded while decoding a JSON array from a unicode string").
Proof.
  split_and!.
  - destruct (C7_parse_kubectl_output Scenario.healthy "  ") as (H & _).
    apply H. reflexivity.
  - destruct (C7_parse_kubectl_output Scenario.healthy Scenario.version_json)
      as (_ & H & _).
    apply H; [left|]; reflexivity.
  - destruct (C7_parse_kubectl_output Scenario.healthy Scenario.table)
      as (_ & _ & H & _).
    apply H; [discriminate|right; split; reflexivity].
  - destruct (C7_parse_kubectl_output Scenario.healthy "{not json")
      as (_ & _ & H & _).
    apply H; [discriminate|left; eexists; split; reflexivity].
  - destruct (C7_parse_kubectl_output Scenario.overwhelmed Scenario.deep_json)
      as (_ & _ & _ & H).
    apply H; [right; by vm_compute|by vm_compute|discriminate].
Defined.



(** C9: when the [args] parameter is absent, empty or made of whitespace
    only, the router returns an ERROR result whose message names the
    missing parameter 'args', with the invocation's arguments as [params];
    it does so before the extractor is consulted, whatever the request
    context is: nothing is logged and no executor is entered. *)
Theorem C9_missing_args env params context :
  args_missing params →
  _invoke env params context
    = ([], inr {| status := ERROR;
                  error := Some "Missing required parameter 'args'. Please provide kubectl command arguments.";
                  return_code := None; data := None; params := params |})
  ∧ calls (_invoke env params context) = []
  ∧ (∃ r msg, returns (_invoke env params context) r
              ∧ status r = ERROR ∧ error r = Some msg
              ∧ Py.contains "'args'" msg).
Proof.
  intros Hmissing.
  assert (command_of params = "") as Hcmd.
  { unfold args_missing, command_of in *.
    destruct (params !! "args") as [s|]; [by apply blank_strip|done]. }
  unfold _invoke. rewrite (invoke_blank _ _ _ _ Hcmd). split_and!; [done..|].
  do 2 eexists. split_and!; [done..|].
  by exists "Missing required parameter ",
    ". Please provide kubectl command arguments.".
Qed.

Lemma C9_missing_args_witness :
  calls (_invoke Scenario.healthy Scenario.blank_args
           (Scenario.with_context Scenario.azure_bad_id)) = []
  ∧ calls (_invoke Scenario.healthy ∅ Scenario.no_context) = [].
Proof.
  split.
  - apply (C9_missing_args Scenario.healthy Scenario.blank_args
             (Scenario.with_context Scenario.azure_bad_id)).
    reflexivity.
  - apply (C9_missing_args Scenario.healthy ∅ Scenario.no_context).
    exact I.
Defined.

(** C10: whenever the SDK is there, the client is built and the run
    command yields a result object, the remote executor returns a
    CommandResult whose stderr is the empty string, whatever the exit
    code, so that for an exit code other than 0 the router's error message
    is "kubectl command failed (exit code N): " with nothing after it.  An
    [exit_code] or [logs] attribute that the object does not have is
    replaced by 0 or the empty string; an attribute that is there is passed
    on with its value, and when that value is [None] no default is taken:
    the exit code [None] is not 0, and the router returns an error that
    reads "exit code None" and carries no return code. *)
Theorem C10_remote_stderr_empty env c args r :
  azure_sdk_installed env = true →
  container_service_client env (access_token c) (subscription_id c) = inr () →
  run_command env (access_token c) (subscription_id c)
    (resource_group c) (resource_name c) ("kubectl " +:+ args) = inr r →
  ∃ result,
    returns (_execute_kubectl_via_azure_sdk env c args) result
    ∧ stderr result = ""
    ∧ (rcr_exit_code r = NoAttribute → exit_code result = Some 0)
    ∧ (rcr_logs r = NoAttribute → stdout result = Some "")
    ∧ (∀ v, rcr_exit_code r = Attribute v → exit_code result = v)
    ∧ (∀ v, rcr_logs r = Attribute v → stdout result = v)
    ∧ (∀ params context,
         command_of params = args → args ≠ "" →
         returns (_get_resource_context context) (Some c) →
         exit_code result ≠ Some 0 →
         returns (_invoke env params context)
           {| status := ERROR;
              error := Some ("kubectl command failed (exit code "
                             +:+ fmt_int (exit_code result) +:+ "): ");
              return_code := exit_code result;
              data := None; params := params |}).
Proof.
  intros Hsdk Hclient Hrun.
  pose proof (remote_outcome env c args) as HR.
  rewrite Hsdk, Hclient, Hrun in HR. eexists. split; [exact HR|].
  cbn [exit_code stdout stderr]. split_and!; try done.
  - by intros ->.
  - by intros ->.
  - by intros v ->.
  - by intros v ->.
  - intros params context <- Hcmd Hctx Hcode.
    destruct (invoke_route dangerous_commands env params context Hcmd) as [Hout _].
    unfold returns in *. rewrite Hctx in Hout. unfold chosen in Hout.
    rewrite HR in Hout. unfold _invoke. rewrite Hout. unfold assembled.
    cbn [exit_code stderr]. rewrite decide_True by done.
    by rewrite str_app_nil_r.
Qed.

Lemma C10_remote_stderr_empty_witness :
  returns (_execute_kubectl_via_azure_sdk Scenario.overwhelmed Scenario.tenant
             "get pods")
    {| exit_code := None; stdout := Some Scenario.table; stderr := "" |}
  ∧ returns (_invoke Scenario.overwhelmed Scenario.get_pods
               (Scenario.with_context Scenario.azure_full))
      {| status := ERROR;
         error := Some "kubectl command failed (exit code None): ";
         return_code := None; data := None; params := Scenario.get_pods |}
  ∧ returns (_execute_kubectl_via_azure_sdk Scenario.failing Scenario.tenant
               "get pods")
      {| exit_code := Some 1; stdout := Some ""; stderr := "" |}.
Proof.
  destruct (C10_remote_stderr_empty Scenario.overwhelmed Scenario.tenant
              "get pods"
              {| rcr_exit_code := Attribute None;
                 rcr_logs := Attribute (Some Scenario.table) |})
    as (result & Hexec & _ & _ & _ & Hcode & Hlogs & Hroute);
    [reflexivity..|].
  pose proof (Hcode None eq_refl) as Hc.
  pose proof (Hlogs (Some Scenario.table) eq_refl) as Hl.
  destruct (C10_remote_stderr_empty Scenario.failing Scenario.tenant "get pods"
              {| rcr_exit_code := Attribute (Some 1); rcr_logs := NoAttribute |})
    as (result' & Hexec' & Herr' & _ & Hlogs' & Hcode' & _);
    [reflexivity..|].
  split_and!.
  - destruct result as [x o s]. simpl in *. by simplify_eq.
  - specialize (Hroute Scenario.get_pods
                  (Scenario.with_context Scenario.azure_full)).
    rewrite Hc in Hroute. apply Hroute;
      [reflexivity|discriminate|by vm_compute|discriminate].
  - destruct result' as [x o s]. simpl in *.
    rewrite (Hcode' (Some 1) eq_refl), (Hlogs' eq_refl) in Hexec'. by subst.
Defined.

(* ===================================================================== *)
(** * Further properties: trimming *)
(* ===================================================================== *)

Lemma lstrip_fixed c t : Py.isspace c = false → Py.lstrip (String c t) = String c t.
Proof. simpl. by intros ->. Qed.

Lemma rstrip_idem s : Py.rstrip (Py.rstrip s) = Py.rstrip s.
Proof.
  induction s as [|c s IH]; simpl; [done|].
  destruct (Py.rstrip s) as [|d r] eqn:Hr.
  - destruct (Py.isspace c) eqn:Hc; simpl; [done|]. by rewrite Hc.
  - simpl in *. by rewrite IH.
Qed.

Lemma strip_idem x : Py.strip (Py.strip x) = Py.strip x.
Proof.
  unfold Py.strip. destruct (Py.rstrip (Py.lstrip x)) as [|c t] eqn:Hr; [done|].
  destruct (rstrip_head _ _ _ Hr) as [y Hy].
  rewrite lstrip_fixed by (by eapply lstrip_head).
  by rewrite <-Hr, rstrip_idem.
Qed.

Lemma rstrip_app a b : Py.rstrip b ≠ "" → Py.rstrip (a +:+ b) = a +:+ Py.rstrip b.
Proof.
  intros Hb. induction a as [|c a IH]; [done|].
  rewrite !str_app_cons. simpl. rewrite IH.
  destruct (a +:+ Py.rstrip b) as [|d r] eqn:Hab; [|done].
  destruct a; [done|by rewrite str_app_cons in Hab].
Qed.

Lemma rstrip_blank s : blank s = true → Py.rstrip s = "".
Proof.
  induction s as [|c s IH]; simpl; [done|].
  intros [Hc Hs]%andb_true_iff. by rewrite IH, Hc.
Qed.

Lemma rstrip_app_blank a b : blank b = true → Py.rstrip (a +:+ b) = Py.rstrip a.
Proof.
  intros Hb. induction a as [|c a IH].
  - by rewrite str_app_nil_l, rstrip_blank.
  - rewrite str_app_cons. simpl. by rewrite IH.
Qed.

Lemma rstrip_empty_blank s : Py.rstrip s = "" → blank s = true.
Proof.
  induction s as [|c s IH]; simpl; [done|].
  destruct (Py.rstrip s); [|done].
  destruct (Py.isspace c); [|done]. intros _. by rewrite IH.
Qed.

Lemma slash_free_rstrip s : slash_free s = true → slash_free (Py.rstrip s) = true.
Proof.
  induction s as [|c s IH]; simpl; [done|].
  intros [Hc Hs]%andb_true_iff.
  destruct (Py.rstrip s) as [|d r] eqn:Hr.
  - destruct (Py.isspace c); simpl; [done|]. by rewrite Hc.
  - simpl in *. by rewrite Hc, IH.
Qed.

Lemma snoc_inj a b c d :
  a +:+ String c "" = b +:+ String d "" → c = d.
Proof.
  revert b. induction a as [|x a IH]; intros [|y b] H;
    rewrite ?str_app_cons, ?str_app_nil_l in H; simplify_eq.
  - done.
  - by destruct b.
  - by destruct a.
  - by eapply IH.
Qed.

Lemma snoc_split s : s ≠ "" → ∃ t c, s = t +:+ String c "".
Proof.
  induction s as [|a s IH]; [done|]. intros _.
  destruct s as [|b s].
  - by exists "", a.
  - destruct IH as (t & c & ->); [done|]. by exists (String a t), c.
Qed.

(** A text of the five-segment form does not end with a slash. *)
Lemma resource_id_form_last x S G N t :
  resource_id_form x S G N → x ≠ t +:+ "/".
Proof.
  intros (l1 & l2 & l3 & P & T & -> & _ & _ & _ & _ & _ & _ & _ & [HN1 HN2]) Hx.
  destruct (snoc_split N HN1) as (N' & n & ->).
  rewrite slash_free_app in HN2. apply andb_true_iff in HN2 as [_ Hn].
  simpl in Hn. rewrite andb_true_r in Hn. apply bool_decide_eq_true in Hn.
  rewrite <-!str_app_assoc in Hx. by apply snoc_inj in Hx.
Qed.

(* ===================================================================== *)
(** * Further properties: ResourceIdParser *)
(* ===================================================================== *)

(** X1: leading and trailing whitespace never changes what
    [_parse_resource_id] returns: an identifier and its trimmed form give
    the same result. *)
Theorem X1_parse_ignores_surrounding_whitespace x :
  (_parse_resource_id (Py.strip x)).2 = (_parse_resource_id x).2.
Proof.
  destruct (parse_resource_id_total x) as [[[[S G] N]|] Hv];
    unfold returns in Hv; rewrite Hv.
  - apply parse_resource_id_iff. rewrite strip_idem.
    by apply parse_resource_id_iff.
  - apply parse_resource_id_none. rewrite strip_idem.
    by apply parse_resource_id_none.
Qed.

(** X2: an identifier written out from five segments parses back to its
    subscription, its resource group and its name without trailing
    whitespace, provided the first four segments are non-empty and free of
    slashes and the name is free of slashes and not blank; the letter case
    of the segments is kept.  When the name is empty or blank the
    identifier is rejected. *)
Theorem X2_written_id_round_trip S G P T N :
  segment S → segment G → segment P → segment T → slash_free N = true →
  (blank N = false →
   returns (_parse_resource_id (written_id S G P T N)) (Some (S, G, Py.rstrip N)))
  ∧ (blank N = true →
     returns (_parse_resource_id (written_id S G P T N)) None).
Proof.
  intros HS HG HP HT HN.
  assert (Py.lstrip (written_id S G P T N) = written_id S G P T N) as Hl
    by done.
  split.
  - intros Hblank.
    assert (Py.rstrip N ≠ "") as Hne.
    { intros H%rstrip_empty_blank. congruence. }
    apply parse_resource_id_iff. unfold Py.strip. rewrite Hl.
    unfold written_id. rewrite <-!str_app_assoc, rstrip_app by done.
    rewrite !str_app_assoc.
    exists "/subscriptions/", "/resourceGroups/", "/providers/", P, T.
    split_and!; try done. split; [done|]. by apply slash_free_rstrip.
  - intros Hblank. apply parse_resource_id_none.
    intros (S' & G' & N' & Hform). revert Hform.
    unfold Py.strip. rewrite Hl. unfold written_id.
    rewrite <-!str_app_assoc, rstrip_app_blank by done.
    rewrite (rstrip_app _ "/") by done. intros Hform.
    by eapply resource_id_form_last in Hform.
Qed.

Lemma X2_written_id_round_trip_witness :
  returns (_parse_resource_id
             (written_id "Sub-123" "rg-test" "Microsoft.ContainerService"
                "managedClusters" "Cluster-A  "))
    (Some ("Sub-123", "rg-test", "Cluster-A"))
  ∧ returns (_parse_resource_id
               (written_id "Sub-123" "rg-test" "Microsoft.ContainerService"
                  "managedClusters" "  "))
      None.
Proof.
  split.
  - apply (X2_written_id_round_trip "Sub-123" "rg-test"
             "Microsoft.ContainerService" "managedClusters" "Cluster-A  ");
      try (split; [discriminate|reflexivity]); reflexivity.
  - apply (X2_written_id_round_trip "Sub-123" "rg-test"
             "Microsoft.ContainerService" "managedClusters" "  ");
      try (split; [discriminate|reflexivity]); reflexivity.
Defined.

(* ===================================================================== *)
(** * Further properties: ContextExtractor *)
(* ===================================================================== *)

(** X3: a request context that names azure in any letter case, carries a
    non-empty access_token and a resource_id whose trimmed text has the
    five-segment form is accepted: the extractor returns the context built
    from the request's resource_id and token as they are, the parsed
    subscription, group and name, the request's tenant_id if any, and
    "azure" as cloud. *)
Theorem X3_extractor_accepts context rc rid tok S G N :
  request_context context = Some rc → names_azure rc →
  rc !! "resource_id" = Some rid → rc !! "access_token" = Some tok →
  tok ≠ "" → resource_id_form (Py.strip rid) S G N →
  returns (_get_resource_context context)
    (Some {| cloud := "azure"; resource_id := rid; access_token := tok;
             subscription_id := S; resource_group := G; resource_name := N;
             tenant_id := rc !! "tenant_id" |}).
Proof.
  intros Hrc Haz Hid Htok Hne Hform.
  pose proof (get_resource_context_azure context rc Hrc Haz) as H.
  rewrite Hid, Htok in H.
  apply parse_resource_id_iff in Hform. unfold returns in Hform.
  destruct rid as [|a rid]; [by vm_compute in Hform|].
  destruct tok as [|b tok]; [done|]. by rewrite Hform in H.
Qed.

Lemma X3_extractor_accepts_witness :
  returns (_get_resource_context (Scenario.with_context Scenario.azure_full))
    (Some Scenario.tenant).
Proof.
  apply (X3_extractor_accepts (Scenario.with_context Scenario.azure_full)
           Scenario.azure_full Scenario.cluster_id "token-123"
           "sub-123" "rg-test" "cluster-test");
    [reflexivity|by vm_compute|by vm_compute|by vm_compute|discriminate|].
  exists "/subscriptions/", "/resourceGroups/", "/providers/",
    "Microsoft.ContainerService", "managedClusters".
  by vm_compute.
Defined.

Lemma get_resource_context_raises context e :
  raises (_get_resource_context context) e →
  exn_cls e = ValueError
  ∧ ∃ rc, request_context context = Some rc ∧ names_azure rc.
Proof.
  intros Hraise. unfold raises in Hraise.
  destruct (request_context context) as [rc|] eqn:Hrc.
  2:{ rewrite (get_resource_context_none context) in Hraise; [done|].
      unfold no_tenant_context. by rewrite Hrc. }
  destruct (decide (names_azure rc)) as [Haz|Hno].
  2:{ rewrite (get_resource_context_none context) in Hraise; [done|].
      unfold no_tenant_context. rewrite Hrc. by right. }
  split; [|by eauto].
  pose proof (get_resource_context_azure context rc Hrc Haz) as H.
  unfold returns, raises in H.
  destruct (rc !! "resource_id") as [[|a rid]|];
    [by rewrite H in Hraise; simplify_eq| |by rewrite H in Hraise; simplify_eq].
  destruct (rc !! "access_token") as [[|b tok]|];
    [by rewrite H in Hraise; simplify_eq| |by rewrite H in Hraise; simplify_eq].
  destruct (parse_resource_id_total (String a rid)) as [v Hv].
  unfold returns in Hv. rewrite Hv in H.
  destruct v as [[[S G] N]|]; rewrite H in Hraise; by simplify_eq.
Qed.

(** X4: for a request context whose values are strings, the only
    exception [_get_resource_context] raises is a ValueError, and it raises
    it only when the context names azure; for any other such request it
    returns. *)
Theorem X4_extractor_raises_only_value_error context e :
  raises (_get_resource_context context) e →
  exn_cls e = ValueError
  ∧ ∃ rc, request_context context = Some rc ∧ names_azure rc.
Proof. apply get_resource_context_raises. Qed.

Lemma X4_extractor_raises_only_value_error_witness :
  exn_cls (Exn ValueError missing_resource_id) = ValueError
  ∧ ∃ rc, request_context (Scenario.with_context Scenario.azure_only) = Some rc
          ∧ names_azure rc.
Proof.
  apply (X4_extractor_raises_only_value_error
           (Scenario.with_context Scenario.azure_only)).
  by vm_compute.
Defined.

(** X5: the letter case of the cloud value is immaterial: two request
    contexts that differ only in the case of their [cloud] value make the
    extractor log, return and raise the same. *)
Theorem X5_cloud_case_immaterial (rc : gmap string string) c1 c2 :
  Py.lower c1 = Py.lower c2 →
  _get_resource_context (carrying (<["cloud" := c1]> rc))
  = _get_resource_context (carrying (<["cloud" := c2]> rc)).
Proof.
  intros Hc. unfold _get_resource_context, carrying. simpl.
  destruct (decide (<["cloud" := c1]> rc = ∅)) as [H|_];
    [by apply insert_non_empty in H|].
  destruct (decide (<["cloud" := c2]> rc = ∅)) as [H|_];
    [by apply insert_non_empty in H|].
  rewrite !lookup_insert_eq. simpl. rewrite Hc.
  by rewrite !lookup_insert_ne by done.
Qed.

Lemma X5_cloud_case_immaterial_witness :
  _get_resource_context (carrying (<["cloud" := "Azure"]> Scenario.azure_full))
  = _get_resource_context (carrying (<["cloud" := "AZURE"]> Scenario.azure_full)).
Proof.
  apply (X5_cloud_case_immaterial Scenario.azure_full "Azure" "AZURE").
  reflexivity.
Defined.

(** X6: the extractor reads the keys cloud, resource_id, access_token and
    tenant_id and no other: adding or changing any other key of a request
    context does not change what it returns or raises. *)
Theorem X6_other_keys_ignored (rc : gmap string string) k v :
  k ∉ context_keys →
  (_get_resource_context (carrying (<[k := v]> rc))).2
  = (_get_resource_context (carrying rc)).2.
Proof.
  intros Hk. unfold context_keys in Hk.
  rewrite !not_elem_of_cons in Hk. destruct Hk as (H1 & H2 & H3 & H4 & _).
  unfold _get_resource_context, carrying. simpl.
  destruct (decide (<[k := v]> rc = ∅)) as [H|_];
    [by apply insert_non_empty in H|].
  rewrite !lookup_insert_ne by done.
  destruct (decide (rc = ∅)) as [->|Hne].
  - rewrite !lookup_empty. done.
  - done.
Qed.

Lemma X6_other_keys_ignored_witness :
  (_get_resource_context
     (carrying (<["region" := "westeurope"]> Scenario.azure_full))).2
  = (_get_resource_context (carrying Scenario.azure_full)).2.
Proof.
  apply (X6_other_keys_ignored Scenario.azure_full "region" "westeurope").
  apply (bool_decide_unpack _). by vm_compute.
Defined.

Lemma get_resource_context_token (rc : gmap string string) t1 t2 :
  t1 ≠ "" → t2 ≠ "" →
  trace (_get_resource_context (with_token rc t1))
  = trace (_get_resource_context (with_token rc t2))
  ∧ match (_get_resource_context (with_token rc t1)).2,
          (_get_resource_context (with_token rc t2)).2 with
    | inl e1, inl e2 => e1 = e2
    | inr None, inr None => True
    | inr (Some c1), inr (Some c2) =>
        same_but_token c1 c2 ∧ access_token c1 = t1 ∧ access_token c2 = t2
    | _, _ => False
    end.
Proof.
  intros H1 H2. unfold _get_resource_context, with_token, carrying, trace.
  simpl.
  destruct (decide (<["access_token" := t1]> rc = ∅)) as [H|_];
    [by apply insert_non_empty in H|].
  destruct (decide (<["access_token" := t2]> rc = ∅)) as [H|_];
    [by apply insert_non_empty in H|].
  rewrite !lookup_insert_eq, !lookup_insert_ne by done.
  destruct (decide (_ ≠ "azure")); [done|].
  destruct (rc !! "resource_id") as [[|a rid]|]; [done| |done].
  destruct t1 as [|b1 t1]; [done|]. destruct t2 as [|b2 t2]; [done|].
  destruct (_parse_resource_id (String a rid)) as [tr [e|[[[S G] N]|]]]; done.
Qed.

(** X7: the extractor neither logs the bearer token nor puts it in an
    error: replacing a non-empty access_token by another non-empty one
    leaves every log entry and every raised error unchanged, and changes a
    returned context in its access_token only. *)
Theorem X7_extractor_token_independent (rc : gmap string string) t1 t2 :
  t1 ≠ "" → t2 ≠ "" →
  logs (_get_resource_context (with_token rc t1))
  = logs (_get_resource_context (with_token rc t2))
  ∧ same_outcome_but_token
      (_get_resource_context (with_token rc t1)).2
      (_get_resource_context (with_token rc t2)).2.
Proof.
  intros H1 H2.
  destruct (get_resource_context_token rc t1 t2 H1 H2) as [Htr Hout].
  split; [unfold logs; by rewrite Htr|].
  unfold same_outcome_but_token.
  destruct (_get_resource_context (with_token rc t1)).2 as [e1|[c1|]],
    (_get_resource_context (with_token rc t2)).2 as [e2|[c2|]]; try done.
  by destruct Hout.
Qed.

Lemma X7_extractor_token_independent_witness :
  logs (_get_resource_context (with_token Scenario.azure_full "token-123"))
  = logs (_get_resource_context (with_token Scenario.azure_full "token-456")).
Proof.
  apply (X7_extractor_token_independent Scenario.azure_full
           "token-123" "token-456"); discriminate.
Defined.

(* ===================================================================== *)
(** * Further properties: ExecutionRouter *)
(* ===================================================================== *)

Lemma logs_of_app tr1 tr2 : logs_of (tr1 ++ tr2) = logs_of tr1 ++ logs_of tr2.
Proof.
  induction tr1 as [|[lvl msg|c] tr1 IH]; simpl; [done|by rewrite IH|done].
Qed.

Lemma logs_of_log lvl msg tr : logs_of (Log lvl msg :: tr) = (lvl, msg) :: logs_of tr.
Proof. done. Qed.

(** The remote executor consults the machine through the SDK only, with
    the context's token, subscription, group and name. *)
Lemma remote_congruence env1 env2 c1 c2 args :
  azure_sdk_installed env1 = azure_sdk_installed env2 →
  container_service_client env1 (access_token c1) (subscription_id c1)
  = container_service_client env2 (access_token c2) (subscription_id c2) →
  run_command env1 (access_token c1) (subscription_id c1)
    (resource_group c1) (resource_name c1) ("kubectl " +:+ args)
  = run_command env2 (access_token c2) (subscription_id c2)
      (resource_group c2) (resource_name c2) ("kubectl " +:+ args) →
  resource_group c1 = resource_group c2 → resource_name c1 = resource_name c2 →
  logs (_execute_kubectl_via_azure_sdk env1 c1 args)
  = logs (_execute_kubectl_via_azure_sdk env2 c2 args)
  ∧ (_execute_kubectl_via_azure_sdk env1 c1 args).2
    = (_execute_kubectl_via_azure_sdk env2 c2 args).2
  ∧ (c1 = c2 → _execute_kubectl_via_azure_sdk env1 c1 args
               = _execute_kubectl_via_azure_sdk env2 c2 args).
Proof.
  intros Hsdk Hclient Hrun Hg Hn.
  unfold _execute_kubectl_via_azure_sdk, logs, trace.
  rewrite Hsdk, Hclient, Hrun, Hg, Hn.
  destruct (azure_sdk_installed env2); [|split_and!; [done|done|by intros ->]].
  destruct (container_service_client env2 _ _) as [e|[]];
    [split_and!; [done|done|by intros ->]|].
  unfold mbind, M_bind, try_except, lift; simpl.
  destruct (run_command env2 _ _ _ _ _) as [e|r];
    split_and!; [done|done|by intros ->|done|done|by intros ->].
Qed.

(** The local executor consults the machine through [shlex.split] of its
    argument and [subprocess.run] on vectors headed by kubectl. *)
Lemma local_congruence env1 env2 args :
  shlex_split env1 args = shlex_split env2 args →
  (∀ argv, subprocess_run env1 ("kubectl" :: argv)
           = subprocess_run env2 ("kubectl" :: argv)) →
  _execute_kubectl_locally env1 args = _execute_kubectl_locally env2 args.
Proof.
  intros Hsplit Hrun. unfold _execute_kubectl_locally. rewrite Hsplit.
  destruct (shlex_split env2 args) as [e|argv]; [done|].
  unfold mbind, M_bind, try_except, lift; simpl. by rewrite Hrun.
Qed.

Lemma parse_kubectl_output_congruence env1 env2 stdout :
  (∀ s, json_loads env1 s = json_loads env2 s) →
  _parse_kubectl_output env1 stdout = _parse_kubectl_output env2 stdout.
Proof.
  intros Hjson. unfold _parse_kubectl_output.
  destruct stdout as [stdout|]; [|done]. by rewrite Hjson.
Qed.

(** X8: the router neither logs the bearer token nor puts it in what it
    returns or raises: with an SDK that answers alike for two non-empty
    tokens, an invocation gives the same log entries and the same result
    or error whichever of the two tokens the request carries. *)
Theorem X8_router_token_independent env params (rc : gmap string string) t1 t2 :
  t1 ≠ "" → t2 ≠ "" →
  (∀ sub, container_service_client env t1 sub = container_service_client env t2 sub) →
  (∀ sub grp name cmd,
     run_command env t1 sub grp name cmd = run_command env t2 sub grp name cmd) →
  logs (_invoke env params (with_token rc t1))
  = logs (_invoke env params (with_token rc t2))
  ∧ (_invoke env params (with_token rc t1)).2
    = (_invoke env params (with_token rc t2)).2.
Proof.
  intros H1 H2 Hclient Hrun. unfold _invoke.
  destruct (decide (command_of params = "")) as [Hblank|Hcmd].
  { by rewrite !invoke_blank. }
  destruct (get_resource_context_token rc t1 t2 H1 H2) as [Htr Hout].
  destruct (invoke_route dangerous_commands env params (with_token rc t1) Hcmd)
    as [Ho1 _].
  destruct (invoke_route dangerous_commands env params (with_token rc t2) Hcmd)
    as [Ho2 _].
  unfold logs. rewrite !invoke_trace by done. rewrite Ho1, Ho2, Htr.
  rewrite !logs_of_app. clear Ho1 Ho2 Htr.
  destruct (_get_resource_context (with_token rc t1)).2 as [e1|[c1|]],
    (_get_resource_context (with_token rc t2)).2 as [e2|[c2|]]; try done.
  - by subst.
  - destruct Hout as ((_ & _ & Hs & Hg & Hn & _) & Ht1 & Ht2).
    destruct (remote_congruence env env c1 c2 (command_of params))
      as (Hl & Ho & _); try done.
    { by rewrite Ht1, Ht2, Hs. }
    { by rewrite Ht1, Ht2, Hs, Hg, Hn. }
    unfold chosen, dispatch_entry, trace. unfold logs, trace in Hl.
    rewrite !logs_of_log, !logs_of_app, Hl, Ho, Hs, Hg, Hn. done.
Qed.

Lemma X8_router_token_independent_witness :
  logs (_invoke Scenario.failing Scenario.get_pods
          (with_token Scenario.azure_full "token-123"))
  = logs (_invoke Scenario.failing Scenario.get_pods
            (with_token Scenario.azure_full "token-456")).
Proof.
  apply (X8_router_token_independent Scenario.failing Scenario.get_pods
           Scenario.azure_full "token-123" "token-456");
    [discriminate|discriminate|reflexivity|reflexivity].
Defined.

Lemma parse_kubectl_output_raises env stdout e :
  raises (_parse_kubectl_output env stdout) e →
  exn_cls e ≠ JSONDecodeError
  ∧ ∃ s, stdout = Some s ∧ json_loads env s = inl e.
Proof.
  unfold _parse_kubectl_output, raises.
  destruct stdout as [stdout|]; [|done].
  destruct (negb _ || negb _); [done|].
  destruct (Py.startswith _ _ || Py.startswith _ _); [|done].
  unfold try_except, lift. simpl.
  destruct (json_loads env stdout) as [[cls msg]|v] eqn:Hjson; [|done].
  destruct cls; simpl; intros [= <-]; (split; [done|by exists stdout]).
Qed.

(** X9: for an invocation whose params and request context hold strings,
    [_invoke] raises in two ways only: the command is not blank and either
    the exception is the ValueError that [_get_resource_context] raised for
    this request, or an executor returned exit code 0 and the exception is
    what [json.loads] raised on its stdout, which is not a
    JSONDecodeError.  Whatever else the executors and the libraries do,
    the invocation returns a StructuredToolResult. *)
Theorem X9_router_raise_origins env params context e :
  raises (_invoke env params context) e →
  command_of params ≠ ""
  ∧ ((exn_cls e = ValueError ∧ raises (_get_resource_context context) e)
     ∨ (∃ azure_ctx result s,
          returns (_get_resource_context context) azure_ctx
          ∧ returns (chosen env azure_ctx (command_of params)) result
          ∧ exit_code result = Some 0
          ∧ stdout result = Some s
          ∧ json_loads env s = inl e
          ∧ exn_cls e ≠ JSONDecodeError)).
Proof.
  intros Hraise. unfold raises, returns, _invoke in *.
  destruct (decide (command_of params = "")) as [Hblank|Hcmd].
  { by rewrite invoke_blank in Hraise. }
  split; [done|].
  destruct (invoke_route dangerous_commands env params context Hcmd) as [Hout _].
  rewrite Hout in Hraise.
  destruct (_get_resource_context context).2 as [e'|azure_ctx] eqn:Hctx.
  - simplify_eq. left. split; [|done].
    by apply (get_resource_context_raises context e).
  - destruct (chosen env azure_ctx (command_of params)).2 as [e'|result]
      eqn:Hexec; [done|].
    right. unfold assembled in Hraise.
    destruct (decide (exit_code result ≠ Some 0)) as [Hne|Heq]; [done|].
    apply dec_stable in Heq.
    destruct (_parse_kubectl_output env (stdout result)).2 as [e'|v] eqn:Hp.
    + rewrite (bind_inl _ _ e') in Hraise by done. simpl in Hraise.
      simplify_eq.
      destruct (parse_kubectl_output_raises env (stdout result) e Hp)
        as (Hcls & s & Hs & Hjson).
      exists azure_ctx, result, s. by split_and!.
    + by rewrite (bind_inr _ _ v) in Hraise by done.
Qed.

Lemma X9_router_raise_origins_witness :
  (command_of Scenario.get_pods ≠ ""
   ∧ ((exn_cls (Exn ValueError missing_resource_id) = ValueError
       ∧ raises (_get_resource_context
                   (Scenario.with_context Scenario.azure_only))
           (Exn ValueError missing_resource_id))
      ∨ (∃ azure_ctx result s,
           returns (_get_resource_context
                      (Scenario.with_context Scenario.azure_only)) azure_ctx
           ∧ returns (chosen Scenario.bare azure_ctx
                        (command_of Scenario.get_pods)) result
           ∧ exit_code result = Some 0
           ∧ stdout result = Some s
           ∧ json_loads Scenario.bare s
             = inl (Exn ValueError missing_resource_id)
           ∧ exn_cls (Exn ValueError missing_resource_id) ≠ JSONDecodeError))).
Proof.
  apply (X9_router_raise_origins Scenario.bare Scenario.get_pods
           (Scenario.with_context Scenario.azure_only)).
  by vm_compute.
Defined.

(** X10: an invocation enters at most one executor and never both: none
    when the command is blank or the extractor raises, the local one
    exactly when the extractor returns no context, the remote one exactly
    when it returns a context, and then with that context and the trimmed
    command. *)
Theorem X10_one_executor_per_invocation env params context :
  (calls (_invoke env params context) = []
   ∧ (command_of params = "" ∨ ∃ e, raises (_get_resource_context context) e))
  ∨ (calls (_invoke env params context) = [LocalExecutor (command_of params)]
     ∧ command_of params ≠ ""
     ∧ returns (_get_resource_context context) None)
  ∨ (∃ c, calls (_invoke env params context)
          = [RemoteExecutor c (command_of params)]
          ∧ command_of params ≠ ""
          ∧ returns (_get_resource_context context) (Some c)).
Proof.
  unfold _invoke, returns, raises.
  destruct (decide (command_of params = "")) as [Hblank|Hcmd].
  { left. rewrite invoke_blank by done. split; [done|by left]. }
  destruct (invoke_route dangerous_commands env params context Hcmd) as [_ Hcalls].
  rewrite Hcalls.
  destruct (_get_resource_context context).2 as [e|[c|]]; eauto 10.
Qed.

(** X11: what [_invoke] returns is either a success with data and
    return code 0 and no error message, or an error with a message and no
    data; and it is a success only if an executor was entered and returned
    exit code 0, the data being what the normaliser returned for its
    stdout. *)
Theorem X11_result_shape env kwargs context r :
  returns (_invoke env kwargs context) r →
  params r = kwargs
  ∧ ((status r = SUCCESS ∧ error r = None ∧ return_code r = Some 0
      ∧ ∃ azure_ctx result v,
          returns (_get_resource_context context) azure_ctx
          ∧ returns (chosen env azure_ctx (command_of kwargs)) result
          ∧ exit_code result = Some 0
          ∧ returns (_parse_kubectl_output env (stdout result)) v
          ∧ data r = Some v)
     ∨ (status r = ERROR ∧ data r = None ∧ ∃ msg, error r = Some msg)).
Proof.
  unfold returns, _invoke.
  destruct (decide (command_of kwargs = "")) as [Hblank|Hcmd].
  { rewrite invoke_blank by done. intros [= <-]. split; [done|]. right. eauto. }
  destruct (invoke_route dangerous_commands env kwargs context Hcmd) as [Hout _].
  rewrite Hout.
  destruct (_get_resource_context context).2 as [e|azure_ctx]; [done|].
  destruct (chosen env azure_ctx (command_of kwargs)).2 as [e|result] eqn:Hexec.
  - intros [= <-]. split; [done|]. right. unfold caught. simpl. eauto.
  - unfold assembled.
    destruct (decide (exit_code result ≠ Some 0)) as [Hne|Heq].
    + intros [= <-]. split; [done|]. right. simpl. eauto.
    + apply dec_stable in Heq.
      destruct (_parse_kubectl_output env (stdout result)).2 as [e|v] eqn:Hp.
      * by rewrite (bind_inl _ _ e) by done.
      * rewrite (bind_inr _ _ v) by done. simpl. intros [= <-].
        split; [done|]. left. simpl. split_and!; try done.
        by exists azure_ctx, result, v.
Qed.

Lemma X11_result_shape_witness :
  ∃ r, returns (_invoke Scenario.healthy Scenario.get_pods Scenario.no_context) r
       ∧ params r = Scenario.get_pods.
Proof.
  eexists. split; [by vm_compute|].
  refine (proj1 (X11_result_shape Scenario.healthy Scenario.get_pods
                   Scenario.no_context _ _)).
  by vm_compute.
Defined.

Lemma computation_eq {A} (m1 m2 : M A) :
  trace m1 = trace m2 → m1.2 = m2.2 → m1 = m2.
Proof. destruct m1, m2. unfold trace. simpl. congruence. Qed.

Lemma assembled_congruence env1 env2 params result :
  (∀ s, json_loads env1 s = json_loads env2 s) →
  assembled env1 params result = assembled env2 params result.
Proof.
  intros Hjson. unfold assembled.
  by rewrite (parse_kubectl_output_congruence env1 env2) by done.
Qed.

(** Two machines on which the chosen executor behaves alike give the same
    invocation. *)
Lemma invoke_congruence verbs env1 env2 params context :
  (∀ s, json_loads env1 s = json_loads env2 s) →
  (∀ azure_ctx, returns (_get_resource_context context) azure_ctx →
     chosen env1 azure_ctx (command_of params)
     = chosen env2 azure_ctx (command_of params)) →
  _invoke_with verbs env1 params context = _invoke_with verbs env2 params context.
Proof.
  intros Hjson Hexec.
  destruct (decide (command_of params = "")) as [Hblank|Hcmd].
  { by rewrite !invoke_blank. }
  destruct (invoke_route verbs env1 params context Hcmd) as [Ho1 _].
  destruct (invoke_route verbs env2 params context Hcmd) as [Ho2 _].
  apply computation_eq.
  - rewrite !invoke_trace by done. do 2 f_equal.
    destruct (_get_resource_context context).2 as [e|azure_ctx] eqn:Hctx;
      [done|].
    by rewrite (Hexec azure_ctx).
  - rewrite Ho1, Ho2.
    destruct (_get_resource_context context).2 as [e|azure_ctx] eqn:Hctx;
      [done|].
    rewrite (Hexec azure_ctx) by done.
    destruct (chosen env2 azure_ctx (command_of params)).2; [done|].
    by rewrite (assembled_congruence env1 env2).
Qed.

(** X12: an invocation without tenant context never touches the Azure
    SDK: two machines that agree on [json.loads], on [shlex.split] of the
    trimmed command and on [subprocess.run] for argument vectors that begin
    with kubectl give the same log, the same executor entries and the same
    result, whatever their SDK is or does. *)
Theorem X12_local_path_ignores_sdk env1 env2 params context :
  no_tenant_context context →
  (∀ s, json_loads env1 s = json_loads env2 s) →
  shlex_split env1 (command_of params) = shlex_split env2 (command_of params) →
  (∀ argv, subprocess_run env1 ("kubectl" :: argv)
           = subprocess_run env2 ("kubectl" :: argv)) →
  _invoke env1 params context = _invoke env2 params context.
Proof.
  intros Hno%get_resource_context_none Hjson Hsplit Hrun.
  apply invoke_congruence; [done|].
  intros azure_ctx Hctx. unfold returns in *. rewrite Hno in Hctx.
  simplify_eq. by apply local_congruence.
Qed.

Lemma X12_local_path_ignores_sdk_witness :
  _invoke Scenario.bare Scenario.get_pods Scenario.no_context
  = _invoke bare_with_sdk_env Scenario.get_pods Scenario.no_context.
Proof.
  apply (X12_local_path_ignores_sdk Scenario.bare bare_with_sdk_env
           Scenario.get_pods Scenario.no_context); [exact I|reflexivity..].
Defined.

(** X13: an invocation with a tenant context never starts a local
    process: two machines that agree on [json.loads], on the presence of
    the SDK, on the client built from the context's token and subscription
    and on the run command for the context's cluster and the trimmed
    command prefixed with kubectl give the same log, the same executor
    entries and the same result, whatever their kubectl does. *)
Theorem X13_remote_path_ignores_kubectl env1 env2 params context c :
  returns (_get_resource_context context) (Some c) →
  (∀ s, json_loads env1 s = json_loads env2 s) →
  azure_sdk_installed env1 = azure_sdk_installed env2 →
  container_service_client env1 (access_token c) (subscription_id c)
  = container_service_client env2 (access_token c) (subscription_id c) →
  run_command env1 (access_token c) (subscription_id c)
    (resource_group c) (resource_name c) ("kubectl " +:+ command_of params)
  = run_command env2 (access_token c) (subscription_id c)
      (resource_group c) (resource_name c) ("kubectl " +:+ command_of params) →
  _invoke env1 params context = _invoke env2 params context.
Proof.
  intros Hc Hjson Hsdk Hclient Hrun.
  apply invoke_congruence; [done|].
  intros azure_ctx Hctx. unfold returns in *. rewrite Hc in Hctx.
  simplify_eq.
  by apply (remote_congruence env1 env2 c c (command_of params)).
Qed.

Lemma X13_remote_path_ignores_kubectl_witness :
  _invoke Scenario.healthy Scenario.get_pods
    (Scenario.with_context Scenario.azure_full)
  = _invoke healthy_no_kubectl_env Scenario.get_pods
      (Scenario.with_context Scenario.azure_full).
Proof.
  apply (X13_remote_path_ignores_kubectl Scenario.healthy
           healthy_no_kubectl_env Scenario.get_pods
           (Scenario.with_context Scenario.azure_full) Scenario.tenant);
    [by vm_compute|reflexivity..].
Defined.



(* ===================================================================== *)
(** * Further properties: AKSToolset *)
(* ===================================================================== *)

(** X15: [_check_prerequisites] never disables the toolset and never
    raises: whatever the kubectl probe does, it returns enabled = True;
    the reason it returns is empty exactly when the probe ran and exited
    with code 0, and names the missing kubectl otherwise. *)
Theorem X15_prerequisites_always_enabled probe :
  ∃ reason,
    returns (_check_prerequisites probe) (true, reason)
    ∧ (reason = ""
       ↔ ∃ p, probe ["kubectl"; "version"; "--client"] = inr p ∧ returncode p = 0)
    ∧ (reason ≠ "" →
       reason = "kubectl not found - local execution will not work. Azure multi-tenant execution via SDK will still work if request_context is provided.")
    ∧ calls (_check_prerequisites probe) = [].
Proof.
  unfold _check_prerequisites, returns, calls, trace.
  destruct (probe _) as [e|p] eqn:Hp.
  - eexists. split_and!; [done| |done|done].
    split; [done|]. by intros (p & ? & _).
  - unfold mbind, M_bind, try_except, lift. simpl.
    destruct (decide (returncode p = 0)) as [H0|Hn]; simpl.
    + eexists. split_and!; [done| |done|done]. split; [eauto|done].
    + eexists. split_and!; [done| |done|done].
      split; [done|]. intros (p' & [= <-] & ?). done.
Qed.

(* ===================================================================== *)
(** * Further properties: failures as the caller sees them *)
(* ===================================================================== *)

(** X16: a failure inside an executor reaches the caller as an ERROR
    result with return code -1 and the executor's diagnostic after the
    fixed prefix: without tenant context, a kubectl that times out gives
    the message "kubectl command failed (exit code -1): Command timed out
    after 60 seconds: kubectl " followed by the trimmed command; with a
    tenant context and the SDK installed, a run command that raises gives
    "kubectl command failed (exit code -1): Azure SDK RunCommand failed: "
    followed by the text of the exception. *)
Theorem X16_executor_failure_surfaces env kwargs context :
  command_of kwargs ≠ "" →
  (∀ argv e,
     no_tenant_context context →
     shlex_split env (command_of kwargs) = inr argv →
     subprocess_run env ("kubectl" :: argv) = inl e →
     exn_cls e = TimeoutExpired →
     returns (_invoke env kwargs context)
       {| status := ERROR;
          error := Some ("kubectl command failed (exit code -1): Command timed out after 60 seconds: kubectl "
                         +:+ command_of kwargs);
          return_code := Some (-1); data := None; params := kwargs |})
  ∧ (∀ c e,
       returns (_get_resource_context context) (Some c) →
       azure_sdk_installed env = true →
       container_service_client env (access_token c) (subscription_id c)
       = inr () →
       run_command env (access_token c) (subscription_id c)
         (resource_group c) (resource_name c)
         ("kubectl " +:+ command_of kwargs) = inl e →
       returns (_invoke env kwargs context)
         {| status := ERROR;
            error := Some ("kubectl command failed (exit code -1): Azure SDK RunCommand failed: "
                           +:+ exn_str e);
            return_code := Some (-1); data := None; params := kwargs |}).
Proof.
  intros Hcmd.
  destruct (invoke_route dangerous_commands env kwargs context Hcmd) as [Hout _].
  unfold returns, _invoke. split.
  - intros argv e Hno%get_resource_context_none Hsplit Hrun Hcls.
    unfold returns in Hno. rewrite Hno in Hout. unfold chosen in Hout.
    pose proof (local_outcome env (command_of kwargs)) as HL. cbv zeta in HL.
    rewrite Hsplit, Hrun, Hcls in HL. rewrite HL in Hout. exact Hout.
  - intros c e Hc Hsdk Hclient Hrun.
    unfold returns in Hc. rewrite Hc in Hout. unfold chosen in Hout.
    pose proof (remote_outcome env c (command_of kwargs)) as HR.
    rewrite Hsdk, Hclient, Hrun in HR. rewrite HR in Hout. exact Hout.
Qed.

Lemma X16_executor_failure_surfaces_witness :
  returns (_invoke Scenario.stuck Scenario.get_pods Scenario.no_context)
    {| status := ERROR;
       error := Some "kubectl command failed (exit code -1): Command timed out after 60 seconds: kubectl get pods";
       return_code := Some (-1); data := None; params := Scenario.get_pods |}
  ∧ returns (_invoke Scenario.stuck Scenario.get_pods
               (Scenario.with_context Scenario.azure_full))
      {| status := ERROR;
         error := Some "kubectl command failed (exit code -1): Azure SDK RunCommand failed: Forbidden";
         return_code := Some (-1); data := None; params := Scenario.get_pods |}.
Proof.
  split.
  - destruct (X16_executor_failure_surfaces Scenario.stuck Scenario.get_pods
                Scenario.no_context) as [H _]; [discriminate|].
    apply (H ["get"; "pods"] (Exn TimeoutExpired "timed out"));
      [exact I|reflexivity..].
  - destruct (X16_executor_failure_surfaces Scenario.stuck Scenario.get_pods
                (Scenario.with_context Scenario.azure_full)) as [_ H];
      [discriminate|].
    apply (H Scenario.tenant (Exn OtherException "Forbidden"));
      [by vm_compute|reflexivity..].
Defined.
